(** * CodeFit extension: health tracker, gamification, exercise catalog
      and sequencer, reminder policy and commit detection, embedded from the
      TypeScript sources.

    Conventions of the embedding.
    - A JavaScript [number] that only ever holds integers (counters, XP,
      seconds, epoch milliseconds) is a [Z].  The real-valued quantities (the
      break ratio, a gap in minutes, the points multiplier, a
      [Math.random()] draw) are exact rationals [Q]; the rounding of IEEE
      doubles is not modelled.  It makes no difference for the break ratio
      (k/8 against 0.5, 0.7 and 0.9), for a gap of whole milliseconds
      rounded to the nearest minute, and for [Math.floor(points * 1.1)] on
      the five base values.
    - A [Date] is its epoch time in milliseconds.  The local calendar is a
      fixed offset [tz] from UTC; one evaluation of a method reads the clock
      once ([now]).
    - [this.storage] / [globalState] is a typed record with one field per key.
    - User interaction is explicit: what the user answers is an input of the
      function, what is displayed is appended to a trace of UI events.
    - [HealthTracker.currentStats] and [GamificationService.userStats] are
      two records; nothing below depends on whether the host hands both
      services the same object. *)

From Stdlib Require Import ZArith QArith Qround Qminmax Lia Bool Ascii String.
From stdpp Require Import base list strings gmap.

Local Open Scope Z_scope.

(** ** JavaScript helpers *)
Module JS.

(** [x < y] on reals, as a boolean. *)
Definition Qltb (x y : Q) : bool := negb (Qle_bool y x).

(** [Math.round]: nearest integer, ties towards +infinity. *)
Definition Math_round (x : Q) : Z := Qfloor (x + (1 # 2))%Q.

(** [a || d] on an optional string: [undefined] and [''] are falsy. *)
Definition or_string (a : option string) (d : string) : string :=
  match a with
  | Some s => if String.eqb s "" then d else s
  | None => d
  end.

(** [a || d] on an optional number: [undefined] and [0] are falsy. *)
Definition or_number (a : option Z) (d : Z) : Z :=
  match a with
  | Some n => if n =? 0 then d else n
  | None => d
  end.

(** [a || d] on an optional object (a [Date]): only [undefined] is falsy. *)
Definition or_else {A} (a : option A) (d : A) : A :=
  match a with Some x => x | None => d end.

(** [a === lit] for an optional string. *)
Definition is_string (a : option string) (lit : string) : bool :=
  match a with Some s => String.eqb s lit | None => false end.

(** A [number] that is either an integer or [NaN]. *)
Inductive num := NaN | Num (z : Z).

Definition add (a b : num) : num :=
  match a, b with Num x, Num y => Num (x + y) | _, _ => NaN end.

Definition mul (a b : num) : num :=
  match a, b with Num x, Num y => Num (x * y) | _, _ => NaN end.

(** [a >= b] and [a <= b]: false as soon as one side is [NaN]. *)
Definition geb (a b : num) : bool :=
  match a, b with Num x, Num y => y <=? x | _, _ => false end.

Definition leb (a b : num) : bool :=
  match a, b with Num x, Num y => x <=? y | _, _ => false end.

(** [hay.includes(needle)] *)
Fixpoint includes (needle hay : string) : bool :=
  String.prefix needle hay ||
  match hay with
  | EmptyString => false
  | String _ rest => includes needle rest
  end.

Fixpoint dropChars (n : nat) (s : string) : string :=
  match n, s with
  | S k, String _ rest => dropChars k rest
  | _, _ => s
  end.

(** [s.replace(pattern, replacement)] with a string pattern: the first
    occurrence only. *)
Fixpoint replace (pattern replacement s : string) : string :=
  if String.prefix pattern s
  then String.append replacement (dropChars (String.length pattern) s)
  else match s with
       | EmptyString => EmptyString
       | String ch rest => String ch (replace pattern replacement rest)
       end.

(** [s.split(sep)] with a one-character separator. *)
Fixpoint split (sep : ascii) (s : string) : list string :=
  match s with
  | EmptyString => [EmptyString]
  | String ch rest =>
      if Ascii.eqb ch sep then EmptyString :: split sep rest
      else match split sep rest with
           | piece :: pieces => String ch piece :: pieces
           | [] => [String ch EmptyString]
           end
  end.

Definition digit (ch : ascii) : option Z :=
  let n := Z.of_nat (nat_of_ascii ch) in
  if (48 <=? n) && (n <=? 57) then Some (n - 48) else None.

(** The value of the longest prefix of decimal digits, read after [acc],
    and whether the whole string was digits. *)
Fixpoint digits (acc : Z) (s : string) : Z * bool :=
  match s with
  | EmptyString => (acc, true)
  | String ch rest =>
      match digit ch with
      | Some d => digits (10 * acc + d) rest
      | None => (acc, false)
      end
  end.

(** [Number(s)] on the strings a time range is made of: the empty string
    is 0, a string of decimal digits is its value; every other string is
    taken to [NaN] (signs, blanks, fractions and exponents are not
    modelled). *)
Definition Number (s : string) : num :=
  match digits 0 s with
  | (n, true) => Num n
  | (_, false) => NaN
  end.

(** [parseInt(s)]: the leading decimal digits, [NaN] when there are none
    (leading blanks and signs are not modelled). *)
Definition parseInt (s : string) : num :=
  match s with
  | EmptyString => NaN
  | String ch _ =>
      match digit ch with
      | Some _ => Num (fst (digits 0 s))
      | None => NaN
      end
  end.

(** [s.toLowerCase()] on the ASCII letters. *)
Definition lowerChar (ch : ascii) : ascii :=
  let n := nat_of_ascii ch in
  if ((65 <=? n) && (n <=? 90))%nat then ascii_of_nat (n + 32) else ch.

Fixpoint toLowerCase (s : string) : string :=
  match s with
  | EmptyString => EmptyString
  | String ch rest => String (lowerChar ch) (toLowerCase rest)
  end.

End JS.

(** ** Shared types (types/index.ts) *)

Record UserStats := mkUserStats {
  healthScore : Z;
  streak : Z;
  longestStreak : Z;
  totalExercises : Z;
  totalExerciseTime : Z;
  totalPoints : Z;
  availablePoints : Z;
  level : Z;
  xp : Z
}.

Record PointsBreakdown := mkPointsBreakdown {
  pb_base : Z;
  pb_multipliers : list (string * Z);
  pb_bonus : Z
}.

Record Activity := mkActivity {
  act_id : string;
  act_userId : string;
  act_type : string;
  exerciseId : string;
  exerciseName : string;
  duration : Z;
  caloriesBurned : Z;
  pointsEarned : Z;
  pointsBreakdown : PointsBreakdown;
  source : string;
  triggeredBy : string;
  teamId : option string;
  challengeId : option string;
  startedAt : Z;
  completedAt : Z;
  createdAt : Z
}.

(** [Partial<Activity>]: the fields [recordActivity] reads. *)
Record PartialActivity := mkPartialActivity {
  p_exerciseId : option string;
  p_exerciseName : option string;
  p_duration : option Z;
  p_caloriesBurned : option Z;
  p_source : option string;
  p_triggeredBy : option string;
  p_teamId : option string;
  p_challengeId : option string;
  p_startedAt : option Z;
  p_completedAt : option Z
}.

Record DailyMetrics := mkDailyMetrics {
  codingTime : Z;
  breaksTaken : Z;
  breaksRecommended : Z;
  exerciseDuration : Z;
  dm_caloriesBurned : Z;
  dm_healthScore : Z;
  longestSittingStreak : Z
}.

(** The wall clock as one method evaluation sees it. *)
Record Clock := mkClock {
  now : Z;        (* new Date().getTime() *)
  tz : Z          (* local time minus UTC, in milliseconds *)
}.

Definition msPerDay : Z := 86400000.

(** The local calendar day of an instant; two instants have the same
    [format(_, 'yyyy-MM-dd')] exactly when they have the same [localDay]. *)
Definition localDay (c : Clock) (t : Z) : Z := (t + tz c) / msPerDay.

(** date-fns [startOfDay(new Date()).getTime()]. *)
Definition startOfDay (c : Clock) : Z := localDay c (now c) * msPerDay - tz c.

(** date-fns [isToday]. *)
Definition isToday (c : Clock) (t : Z) : bool := localDay c t =? localDay c (now c).

(** ** Exercise catalog types and constants/achievements.ts *)

(** [Exercise['category']]; [CatOther] stands for a run-time value outside
    the declared union, the only way the [|| 10] defaults are reached. *)
Inductive Category := Cat1min | Cat3min | Cat5min | CatTargeted | CatOther.

Record ExerciseStep := mkStep {
  instruction : string;
  step_duration : Z
}.

(** The fields of [Exercise] the services read. *)
Record Exercise := mkExercise {
  ex_id : string;
  ex_name : string;
  category : Category;
  ex_duration : Z;               (* seconds *)
  steps : list ExerciseStep;
  benefits : list string;
  caloriesBurn : Z
}.

Inductive ReqType := ReqStreak | ReqCount | ReqTimeBased | ReqSpeed | ReqSocial.
Inductive TimeOfDay := Morning | Afternoon | Evening | Night.

Record AchievementRequirement := mkReq {
  req_type : ReqType;
  req_days : option Z;
  req_count : option Z;
  req_time : option TimeOfDay;
  req_action : option string
}.

Record Achievement := mkAchievement {
  ach_id : string;
  ach_name : string;
  requirement : AchievementRequirement;
  reward_xp : Z;
  reward_badge : string
}.

Record Level := mkLevel {
  lv_level : Z;
  lv_name : string;
  xpRequired : Z
}.

Record QuestTask := mkTask {
  task_id : string;
  task_description : string;
  target : Z;
  current : Z;
  task_xp : Z;
  task_completed : bool
}.

Record DailyQuest := mkQuest {
  quest_date : Z;
  tasks : list QuestTask;
  totalXP : Z;
  quest_completed : bool
}.

Definition ACHIEVEMENTS : list Achievement :=
  [ mkAchievement "streak_7" "Week Warrior"
      (mkReq ReqStreak (Some 7) None None None) 100 "week-warrior";
    mkAchievement "streak_30" "Monthly Master"
      (mkReq ReqStreak (Some 30) None None None) 500 "monthly-master";
    mkAchievement "streak_100" "Century Club"
      (mkReq ReqStreak (Some 100) None None None) 2000 "century-club";
    mkAchievement "breaks_100" "Break Master"
      (mkReq ReqCount None (Some 100) None (Some "break")) 150 "break-master";
    mkAchievement "exercises_500" "Exercise Enthusiast"
      (mkReq ReqCount None (Some 500) None (Some "exercise")) 800 "exercise-enthusiast";
    mkAchievement "morning_7" "Morning Glory"
      (mkReq ReqTimeBased (Some 7) None (Some Morning) None) 200 "morning-glory";
    mkAchievement "night_owl" "Night Owl Health"
      (mkReq ReqTimeBased None (Some 10) (Some Night) None) 300 "night-owl" ].

Definition LEVELS : list Level :=
  [ mkLevel 1 "Code Newbie" 0;
    mkLevel 2 "Alert Coder" 100;
    mkLevel 3 "Stretch Master" 250;
    mkLevel 5 "Healthy Coder" 500;
    mkLevel 10 "Wellness Warrior" 1500;
    mkLevel 15 "Balance Champion" 3000;
    mkLevel 20 "Zen Master" 5000;
    mkLevel 30 "Health Guru" 10000;
    mkLevel 50 "Immortal Developer" 25000 ].

(** ** constants/exercises.ts *)

Definition EXERCISES : list Exercise :=
  [
    mkExercise "eye_exercise" "20-20-20 Eye Exercise" Cat1min 60
      [ mkStep "Look at an object 20 feet (6 meters) away" 20;
        mkStep "Keep looking at the distant object" 20;
        mkStep "Return to your screen" 20 ]
      ["Reduces eye strain"; "Prevents computer vision syndrome"; "Relaxes eye muscles"]
      2;
    mkExercise "neck_stretch" "Neck Stretch" Cat1min 60
      [ mkStep "Slowly turn your head to the right" 10;
        mkStep "Hold for 10 seconds" 10;
        mkStep "Turn your head to the left" 10;
        mkStep "Hold for 10 seconds" 10;
        mkStep "Repeat one more time on each side" 20 ]
      ["Relieves neck stiffness"; "Improves flexibility"; "Reduces tension headaches"]
      3;
    mkExercise "deep_breathing" "Deep Breathing Exercise" Cat1min 60
      [ mkStep "Breathe in slowly for 4 seconds" 4;
        mkStep "Hold your breath for 4 seconds" 4;
        mkStep "Breathe out slowly for 6 seconds" 6;
        mkStep "Repeat 4 times" 46 ]
      ["Reduces stress"; "Improves focus"; "Lowers blood pressure"]
      2;
    mkExercise "desk_squats" "Desk Squats" Cat3min 180
      [ mkStep "Stand with feet shoulder-width apart" 10;
        mkStep "Lower your body as if sitting back into a chair" 3;
        mkStep "Keep your chest up and knees behind toes" 2;
        mkStep "Push back up to starting position" 3;
        mkStep "Repeat 15 times" 162 ]
      ["Strengthens leg muscles"; "Improves circulation"; "Burns calories"]
      15;
    mkExercise "wall_pushups" "Wall Pushups" Cat3min 180
      [ mkStep "Stand facing a wall at arm's length" 10;
        mkStep "Place hands flat on wall at shoulder height" 5;
        mkStep "Bend elbows and lean toward wall" 3;
        mkStep "Push back to starting position" 2;
        mkStep "Repeat 12 times" 160 ]
      ["Strengthens upper body"; "Improves posture"; "Builds chest and arm muscles"]
      18;
    mkExercise "arm_circles" "Arm Circles" Cat3min 180
      [ mkStep "Stand with feet shoulder-width apart" 10;
        mkStep "Extend arms straight out to sides" 5;
        mkStep "Make small circles forward for 30 seconds" 30;
        mkStep "Make small circles backward for 30 seconds" 30;
        mkStep "Make large circles forward for 30 seconds" 30;
        mkStep "Make large circles backward for 30 seconds" 30;
        mkStep "Rest and repeat" 45 ]
      ["Improves shoulder mobility"; "Reduces shoulder tension"; "Increases blood flow"]
      12;
    mkExercise "walking_break" "Walking Break" Cat5min 300
      [ mkStep "Stand up from your desk" 10;
        mkStep "Walk around your office or outside" 240;
        mkStep "Take deep breaths while walking" 30;
        mkStep "Return to your desk feeling refreshed" 20 ]
      ["Improves circulation"; "Boosts energy"; "Clears mind"; "Reduces sitting time"]
      25;
    mkExercise "stair_climb" "Stair Climbing" Cat5min 300
      [ mkStep "Find a staircase" 20;
        mkStep "Walk up and down at a comfortable pace" 240;
        mkStep "Take breaks as needed" 20;
        mkStep "Cool down with slow walking" 20 ]
      ["Cardio workout"; "Strengthens legs"; "Improves stamina"; "Burns significant calories"]
      40;
    mkExercise "stretching_routine" "Full Body Stretching" Cat5min 300
      [ mkStep "Neck rolls - 30 seconds" 30;
        mkStep "Shoulder shrugs - 30 seconds" 30;
        mkStep "Torso twists - 30 seconds" 30;
        mkStep "Side bends - 30 seconds each side" 60;
        mkStep "Hip circles - 30 seconds" 30;
        mkStep "Leg swings - 30 seconds each leg" 60;
        mkStep "Ankle rolls - 30 seconds" 30;
        mkStep "Full body shake out - 30 seconds" 30 ]
      ["Improves flexibility"; "Reduces muscle tension"; "Prevents injury"; "Increases range of motion"]
      20;
    mkExercise "back_pain_relief" "Back Pain Relief Routine" CatTargeted 240
      [ mkStep "Cat-Cow stretch - 10 reps" 60;
        mkStep "Seated spinal twist - 30 seconds each side" 60;
        mkStep "Forward fold - 30 seconds" 30;
        mkStep "Child's pose - 60 seconds" 60;
        mkStep "Gentle back extension - 30 seconds" 30 ]
      ["Relieves back pain"; "Improves spinal flexibility"; "Reduces muscle tension"]
      15;
    mkExercise "wrist_exercise" "Wrist and Hand Exercise" CatTargeted 120
      [ mkStep "Wrist circles - 10 times each direction" 30;
        mkStep "Finger stretches - spread and squeeze" 30;
        mkStep "Wrist flexion and extension - 10 reps" 30;
        mkStep "Prayer position stretch - 30 seconds" 30 ]
      ["Prevents carpal tunnel"; "Reduces wrist pain"; "Improves grip strength"]
      5 ].

(** [getExerciseById] *)
Definition getExerciseById (id : string) : option Exercise :=
  List.find (fun ex => String.eqb (ex_id ex) id) EXERCISES.

Definition sameCategory (a b : Category) : bool :=
  match a, b with
  | Cat1min, Cat1min | Cat3min, Cat3min | Cat5min, Cat5min
  | CatTargeted, CatTargeted | CatOther, CatOther => true
  | _, _ => false
  end.

(** [getExercisesByCategory] *)
Definition getExercisesByCategory (c : Category) : list Exercise :=
  List.filter (fun ex => sameCategory (category ex) c) EXERCISES.

(** What the services display, in order of appearance. *)
Inductive Severity := Light | Standard | Strong.
Inductive Emotion := Celebration | Frustration | Milestone | Normal.

Inductive UIEvent :=
  | LevelUpNotification (oldLevel newLevel : Z)
  | AchievementNotification (id : string)
  | QuestCompletedNotification
  | StartPrompt (exercise : string)
  | StepPrompt (stepNumber totalSteps : Z)
  | CancelledMessage
  | CompletionCelebration (exercise : string) (xpEarned : Z)
      (firstAchievement : option string)
  | CommandViewStats
  | ExercisePicker (suggestedDuration : option Z)
  | ReminderNotification (severity : Severity) (message : option string)
      (actions : list string)
  | SnoozedMessage (minutes : Z)
  | PostCommitNotification (emotion : Emotion).

(** [new Date().getHours()] in local time. *)
Definition getHours (c : Clock) : Z := ((now c + tz c) mod msPerDay) / 3600000.

(** [new Date().getMinutes()] in local time. *)
Definition getMinutes (c : Clock) : Z := ((now c + tz c) mod 3600000) / 60000.

(** ** The state the services share *)

(** [utils/storage.ts] over [context.globalState], one field per key. *)
Record Storage := mkStorage {
  stored_activities : list Activity;                 (* 'activities', default [] *)
  stored_userStats : option UserStats;               (* 'userStats' *)
  stored_unlockedAchievements : list string;         (* 'unlockedAchievements', default [] *)
  stored_dailyQuest : option DailyQuest              (* 'dailyQuest' *)
}.

Record World := mkWorld {
  storage : Storage;
  currentStats : UserStats;                (* HealthTracker.currentStats *)
  userStats : UserStats;                   (* GamificationService.userStats *)
  unlockedAchievements : gset string;      (* GamificationService.unlockedAchievements *)
  dailyQuest : option DailyQuest;          (* GamificationService.dailyQuest *)
  ui : list UIEvent
}.

Definition set_storage (w : World) (s : Storage) : World :=
  mkWorld s (currentStats w) (userStats w) (unlockedAchievements w) (dailyQuest w) (ui w).

Definition set_currentStats (w : World) (s : UserStats) : World :=
  mkWorld (storage w) s (userStats w) (unlockedAchievements w) (dailyQuest w) (ui w).

Definition set_userStats (w : World) (s : UserStats) : World :=
  mkWorld (storage w) (currentStats w) s (unlockedAchievements w) (dailyQuest w) (ui w).

Definition set_unlocked (w : World) (u : gset string) : World :=
  mkWorld (storage w) (currentStats w) (userStats w) u (dailyQuest w) (ui w).

Definition set_dailyQuest (w : World) (q : option DailyQuest) : World :=
  mkWorld (storage w) (currentStats w) (userStats w) (unlockedAchievements w) q (ui w).

Definition show (e : UIEvent) (w : World) : World :=
  mkWorld (storage w) (currentStats w) (userStats w) (unlockedAchievements w)
    (dailyQuest w) (ui w ++ [e]).

Definition defaultStats : UserStats := mkUserStats 100 0 0 0 0 0 0 1 0.

(** ** HealthTracker.ts *)
Module HealthTracker.

(** [loadStats] *)
Definition loadStats (st : Storage) : UserStats :=
  JS.or_else (stored_userStats st) defaultStats.

(** [saveStats] *)
Definition saveStats (w : World) : World :=
  let st := storage w in
  set_storage w (mkStorage (stored_activities st) (Some (currentStats w))
                   (stored_unlockedAchievements st) (stored_dailyQuest st)).

(** [getActivities] *)
Definition getActivities (w : World) : list Activity :=
  stored_activities (storage w).

(** [getActivitiesForDate(new Date())] *)
Definition getActivitiesForDate (c : Clock) (w : World) : list Activity :=
  filter (fun a => localDay c (createdAt a) = localDay c (now c)) (getActivities w).

(** [Array.prototype.sort] with the comparator
    [a.completedAt - b.completedAt] (stable). *)
Fixpoint insertByCompletion (a : Activity) (l : list Activity) : list Activity :=
  match l with
  | [] => [a]
  | b :: r =>
      if completedAt a <=? completedAt b then a :: b :: r
      else b :: insertByCompletion a r
  end.

Definition sortByCompletion (l : list Activity) : list Activity :=
  foldr insertByCompletion [] l.

(** Loop state of [calculateLongestSittingStreak]. *)
Record SitLoop := mkSit {
  sl_longest : Q;
  sl_current : Q;
  sl_last : Z
}.

Definition sitStep (s : SitLoop) (a : Activity) : SitLoop :=
  let gap := startedAt a - sl_last s in
  let gapMinutes := (inject_Z gap / inject_Z (1000 * 60))%Q in
  let current := (sl_current s + gapMinutes)%Q in
  let longest := Qmax (sl_longest s) current in
  mkSit longest 0%Q (completedAt a).

(** [calculateLongestSittingStreak] *)
Definition calculateLongestSittingStreak (c : Clock) (acts : list Activity) : Z :=
  if (length acts =? 0)%nat then 480
  else
    let sortedActivities := sortByCompletion acts in
    let s := fold_left sitStep sortedActivities (mkSit 0%Q 0%Q (startOfDay c)) in
    let finalGap := (inject_Z (now c - sl_last s) / inject_Z (1000 * 60))%Q in
    let current := (sl_current s + finalGap)%Q in
    let longest := Qmax (sl_longest s) current in
    JS.Math_round longest.

(** [calculateDailyMetrics] *)
Definition calculateDailyMetrics (c : Clock) (w : World) (acts : list Activity)
    : DailyMetrics :=
  let totalDuration := fold_left (fun sum a => sum + duration a) acts 0 in
  let totalCalories := fold_left (fun sum a => sum + caloriesBurned a) acts 0 in
  let codingTime := 480 in
  let recommended := codingTime / 60 in
  mkDailyMetrics codingTime (Z.of_nat (length acts)) recommended
    (totalDuration / 60) totalCalories (healthScore (currentStats w))
    (calculateLongestSittingStreak c acts).

(** The four penalty bands of [calculateHealthScore]. *)
Definition breakRatio (dm : DailyMetrics) : Q :=
  if 0 <? breaksRecommended dm
  then (inject_Z (breaksTaken dm) / inject_Z (breaksRecommended dm))%Q
  else 0%Q.

Definition breakPenalty (dm : DailyMetrics) : Z :=
  if JS.Qltb (breakRatio dm) (5 # 10) then 40
  else if JS.Qltb (breakRatio dm) (7 # 10) then 20
  else if JS.Qltb (breakRatio dm) (9 # 10) then 10
  else 0.

Definition sittingPenalty (dm : DailyMetrics) : Z :=
  if 120 <? longestSittingStreak dm then 30
  else if 90 <? longestSittingStreak dm then 20
  else if 60 <? longestSittingStreak dm then 10
  else 0.

Definition durationPenalty (dm : DailyMetrics) : Z :=
  if exerciseDuration dm <? 10 then 15
  else if exerciseDuration dm <? 20 then 8
  else 0.

(** [new Set(today.map(a => a.exerciseId)).size] *)
Definition uniqueExercises (today : list Activity) : Z :=
  Z.of_nat (size (list_to_set (map exerciseId today) : gset string)).

Definition varietyPenalty (today : list Activity) : Z :=
  if uniqueExercises today <? 2 then 15
  else if uniqueExercises today <? 3 then 8
  else 0.

(** [calculateHealthScore] *)
Definition calculateHealthScore (c : Clock) (w : World) : Z :=
  let today := getActivitiesForDate c w in
  let dailyMetrics := calculateDailyMetrics c w today in
  let score := 100 in
  let score := score - breakPenalty dailyMetrics in
  let score := score - sittingPenalty dailyMetrics in
  let score := score - durationPenalty dailyMetrics in
  let score := score - varietyPenalty today in
  (* Math.round(score) is the identity: score is an integer here *)
  Z.max 0 (Z.min 100 score).

Definition with_healthScore (s : UserStats) (v : Z) : UserStats :=
  mkUserStats v (streak s) (longestStreak s) (totalExercises s)
    (totalExerciseTime s) (totalPoints s) (availablePoints s) (level s) (xp s).

Definition with_streak (s : UserStats) (v : Z) : UserStats :=
  mkUserStats (healthScore s) v (longestStreak s) (totalExercises s)
    (totalExerciseTime s) (totalPoints s) (availablePoints s) (level s) (xp s).

Definition with_longestStreak (s : UserStats) (v : Z) : UserStats :=
  mkUserStats (healthScore s) (streak s) v (totalExercises s)
    (totalExerciseTime s) (totalPoints s) (availablePoints s) (level s) (xp s).

(** [updateHealthScore] *)
Definition updateHealthScore (c : Clock) (w : World) : World :=
  saveStats
    (set_currentStats w (with_healthScore (currentStats w) (calculateHealthScore c w))).

(** The streak transition of [updateStreak], on the two booleans the
    method derives from the activity log. *)
Definition streakTransition (hasActivityToday hasActivityYesterday : bool)
    (s : UserStats) : UserStats :=
  if hasActivityToday then
    let s := if hasActivityYesterday || (streak s =? 0)
             then with_streak s (streak s + 1) else s in
    if longestStreak s <? streak s
    then with_longestStreak s (streak s) else s
  else if negb hasActivityYesterday && (0 <? streak s) then
    (* Streak broken *)
    with_streak s 0
  else s.

Definition hasActivityToday (c : Clock) (w : World) : bool :=
  existsb (fun a => isToday c (createdAt a)) (getActivities w).

(** [yesterday.setDate(yesterday.getDate() - 1)]: the previous calendar day. *)
Definition hasActivityYesterday (c : Clock) (w : World) : bool :=
  existsb (fun a => localDay c (createdAt a) =? localDay c (now c) - 1)
          (getActivities w).

(** [updateStreak] *)
Definition updateStreak (c : Clock) (w : World) : World :=
  saveStats
    (set_currentStats w
       (streakTransition (hasActivityToday c w) (hasActivityYesterday c w)
          (currentStats w))).

(** The list [saveActivity] stores: push, then [splice(0, length - 1000)]
    when the length exceeds 1000. *)
Definition pushCapped (activities : list Activity) (activity : Activity)
    : list Activity :=
  let activities := activities ++ [activity] in
  if (1000 <? length activities)%nat
  then drop (length activities - 1000) activities
  else activities.

(** [saveActivity] *)
Definition saveActivity (activity : Activity) (w : World) : World :=
  let st := storage w in
  set_storage w (mkStorage (pushCapped (getActivities w) activity)
                   (stored_userStats st) (stored_unlockedAchievements st)
                   (stored_dailyQuest st)).

(** [calculateBasePoints] *)
Definition calculateBasePoints (duration : Z) : Z :=
  if duration <=? 60 then 5
  else if duration <=? 180 then 15
  else 30.

(** [calculatePoints] *)
Definition calculatePoints (duration : Z) : Z := calculateBasePoints duration.

(** [updateStats] *)
Definition updateStats (c : Clock) (activity : Activity) (w : World) : World :=
  let s := currentStats w in
  let s := mkUserStats (healthScore s) (streak s) (longestStreak s)
             (totalExercises s + 1)
             (totalExerciseTime s + duration activity / 60)
             (totalPoints s + pointsEarned activity)
             (availablePoints s + pointsEarned activity)
             (level s) (xp s) in
  saveStats (updateStreak c (set_currentStats w s)).

(** The record [recordActivity] builds; [activityId] stands for the
    generated [`activity_${Date.now()}_${random}`]. *)
Definition fullActivity (c : Clock) (activityId : string)
    (activity : PartialActivity) : Activity :=
  let d := JS.or_number (p_duration activity) 0 in
  mkActivity activityId "local" "exercise"
    (JS.or_string (p_exerciseId activity) "")
    (JS.or_string (p_exerciseName activity) "")
    d
    (JS.or_number (p_caloriesBurned activity) 0)
    (calculatePoints d)
    (mkPointsBreakdown (calculateBasePoints d) [] 0)
    (JS.or_string (p_source activity) "vscode")
    (JS.or_string (p_triggeredBy activity) "manual")
    (p_teamId activity)
    (p_challengeId activity)
    (JS.or_else (p_startedAt activity) (now c))
    (JS.or_else (p_completedAt activity) (now c))
    (now c).

(** [recordActivity] *)
Definition recordActivity (c : Clock) (activityId : string)
    (activity : PartialActivity) (w : World) : World :=
  let a := fullActivity c activityId activity in
  updateHealthScore c (updateStats c a (saveActivity a w)).

End HealthTracker.

(** ** GamificationService.ts *)
Module Gamification.

Definition add_xp (s : UserStats) (n : Z) : UserStats :=
  mkUserStats (healthScore s) (streak s) (longestStreak s) (totalExercises s)
    (totalExerciseTime s) (totalPoints s) (availablePoints s) (level s) (xp s + n).

Definition with_level (s : UserStats) (l : Z) : UserStats :=
  mkUserStats (healthScore s) (streak s) (longestStreak s) (totalExercises s)
    (totalExerciseTime s) (totalPoints s) (availablePoints s) l (xp s).

Definition add_points (s : UserStats) (n : Z) : UserStats :=
  mkUserStats (healthScore s) (streak s) (longestStreak s) (totalExercises s)
    (totalExerciseTime s) (totalPoints s + n) (availablePoints s + n) (level s) (xp s).

(** [saveUserStats] *)
Definition saveUserStats (w : World) : World :=
  let st := storage w in
  set_storage w (mkStorage (stored_activities st) (Some (userStats w))
                   (stored_unlockedAchievements st) (stored_dailyQuest st)).

(** [saveUnlockedAchievements]; [Array.from] of the set, whose insertion
    order is not tracked. *)
Definition saveUnlockedAchievements (w : World) : World :=
  let st := storage w in
  set_storage w (mkStorage (stored_activities st) (stored_userStats st)
                   (elements (unlockedAchievements w)) (stored_dailyQuest st)).

(** [saveDailyQuest] *)
Definition saveDailyQuest (w : World) : World :=
  match dailyQuest w with
  | Some q =>
      let st := storage w in
      set_storage w (mkStorage (stored_activities st) (stored_userStats st)
                       (stored_unlockedAchievements st) (Some q))
  | None => w
  end.

(** The table [{'1min': 5, '3min': 15, '5min': 30, 'targeted': 20}[c] || 10],
    written out once in [calculateExerciseXP] and once in
    [calculateExercisePoints]. *)
Definition baseTable (c : Category) : Z :=
  match c with
  | Cat1min => 5
  | Cat3min => 15
  | Cat5min => 30
  | CatTargeted => 20
  | CatOther => 10
  end.

(** [calculateExerciseXP] *)
Definition calculateExerciseXP (exercise : Exercise) : Z :=
  baseTable (category exercise).

(** [calculateBonusXP] *)
Definition calculateBonusXP (c : Clock) (w : World) : Z :=
  let bonus := 0 in
  let hour := getHours c in
  let bonus := if (6 <=? hour) && (hour <? 8) then bonus + 5 else bonus in
  let bonus := if 7 <=? streak (userStats w)
               then bonus + (streak (userStats w) / 7) * 2 else bonus in
  bonus.

(** [calculateExercisePoints]; [enabled] is the setting
    [codefit.gamification.enabled]. *)
Definition calculateExercisePoints (enabled : bool) (w : World) (exercise : Exercise)
    : Z :=
  let points := baseTable (category exercise) in
  if enabled then
    if 7 <=? streak (userStats w)
    then Qfloor (inject_Z points * (11 # 10))%Q
    else points
  else points.

(** The descending scan of [findCurrentLevel], on the table read from its
    last entry to its first. *)
Fixpoint scanLevels (xp : Z) (descending : list Level) : Z :=
  match descending with
  | [] => 1
  | l :: rest => if xpRequired l <=? xp then lv_level l else scanLevels xp rest
  end.

(** [findCurrentLevel] *)
Definition findCurrentLevel (xp : Z) : Z := scanLevels xp (rev LEVELS).

(** [checkAndHandleLevelUp] *)
Definition checkAndHandleLevelUp (w : World) : World * bool :=
  let currentLevel := findCurrentLevel (xp (userStats w)) in
  if level (userStats w) <? currentLevel
  then (set_userStats w (with_level (userStats w) currentLevel), true)
  else (w, false).

(** [checkTimeBasedAchievement] *)
Definition checkTimeBasedAchievement (c : Clock) (req : AchievementRequirement) : bool :=
  let hour := getHours c in
  match req_time req with
  | Some Morning => (6 <=? hour) && (hour <? 10)
  | Some Night => (22 <=? hour) || (hour <? 6)
  | _ => false
  end.

(** [checkAchievementRequirement] *)
Definition checkAchievementRequirement (c : Clock) (w : World)
    (achievement : Achievement) (exercise : Exercise) : bool :=
  let req := requirement achievement in
  match req_type req with
  | ReqStreak => JS.or_number (req_days req) 0 <=? streak (userStats w)
  | ReqCount =>
      match req_action req with
      | Some a =>
          if String.eqb a "break" || String.eqb a "exercise"
          then JS.or_number (req_count req) 0 <=? totalExercises (userStats w)
          else false
      | None => false
      end
  | ReqTimeBased => checkTimeBasedAchievement c req
  | _ => false
  end.

(** One iteration of the loop of [checkAchievements]. *)
Definition checkOne (c : Clock) (exercise : Exercise)
    (acc : World * list Achievement) (achievement : Achievement)
    : World * list Achievement :=
  let '(w, newAchievements) := acc in
  if decide (ach_id achievement ∈ unlockedAchievements w) then acc
  else if checkAchievementRequirement c w achievement exercise then
    let w := set_unlocked w ({[ ach_id achievement ]} ∪ unlockedAchievements w) in
    let w := set_userStats w (add_xp (userStats w) (reward_xp achievement)) in
    (w, newAchievements ++ [achievement])
  else acc.

(** [checkAchievements] *)
Definition checkAchievements (c : Clock) (exercise : Exercise) (w : World)
    : World * list Achievement :=
  fold_left (checkOne c exercise) ACHIEVEMENTS (w, []).

Definition is5min (c : Category) : bool :=
  match c with Cat5min => true | _ => false end.

(** One iteration of the task loop of [updateDailyQuestProgress]: the task
    after the iteration and the XP it grants. *)
Definition progressTask (exercise : Exercise) (task : QuestTask) : QuestTask * Z :=
  if task_completed task then (task, 0)
  else
    let bump := mkTask (task_id task) (task_description task) (target task)
                  (current task + 1) (task_xp task) (task_completed task) in
    let task :=
      if String.eqb (task_id task) "task_breaks" then bump
      else if String.eqb (task_id task) "task_5min" && is5min (category exercise)
      then bump
      else if String.eqb (task_id task) "task_eyes"
              && String.eqb (ex_id exercise) "eye_exercise" then bump
      else if String.eqb (task_id task) "task_variety" then bump
      else task in
    if target task <=? current task
    then (mkTask (task_id task) (task_description task) (target task)
            (current task) (task_xp task) true, task_xp task)
    else (task, 0).

(** The whole task loop: the tasks afterwards and the XP granted in total. *)
Definition progressTasks (exercise : Exercise) (ts : list QuestTask)
    : list QuestTask * Z :=
  fold_left (fun acc task =>
               let '(seen, gained) := acc in
               let '(task, x) := progressTask exercise task in
               (seen ++ [task], gained + x))
            ts ([], 0).

(** [updateDailyQuestProgress] *)
Definition updateDailyQuestProgress (exercise : Exercise) (w : World) : World :=
  match dailyQuest w with
  | None => w
  | Some q =>
      let '(ts, gained) := progressTasks exercise (tasks q) in
      let w := set_userStats w (add_xp (userStats w) gained) in
      let allCompleted := forallb task_completed ts in
      let bonus := allCompleted && negb (quest_completed q) in
      let q := mkQuest (quest_date q) ts (totalXP q)
                 (if bonus then true else quest_completed q) in
      let w := set_dailyQuest w (Some q) in
      let w := if bonus
               then show QuestCompletedNotification
                      (set_userStats w (add_xp (userStats w) 50))
               else w in
      saveUserStats (saveDailyQuest w)
  end.

Record AwardResult := mkAward {
  xpEarned : Z;
  award_pointsEarned : Z;
  leveledUp : bool;
  newLevel : option Z;
  newAchievements : list Achievement
}.

(** [awardExerciseCompletion] *)
Definition awardExerciseCompletion (c : Clock) (enabled : bool)
    (exercise : Exercise) (w : World) : World * AwardResult :=
  let baseXP := calculateExerciseXP exercise in
  let bonusXP := calculateBonusXP c w in
  let totalXP := baseXP + bonusXP in
  let points := calculateExercisePoints enabled w exercise in
  let oldLevel := level (userStats w) in
  let w := set_userStats w (add_points (add_xp (userStats w) totalXP) points) in
  let '(w, leveledUp) := checkAndHandleLevelUp w in
  let newLevel := if leveledUp then Some (level (userStats w)) else None in
  let '(w, newAchievements) := checkAchievements c exercise w in
  let w := updateDailyQuestProgress exercise w in
  let w := saveUserStats w in
  let w := saveUnlockedAchievements w in
  let w := if leveledUp
           then show (LevelUpNotification oldLevel (level (userStats w))) w else w in
  let w := fold_left (fun w a => show (AchievementNotification (ach_id a)) w)
             newAchievements w in
  (w, mkAward totalXP points leveledUp newLevel newAchievements).

(** [generateDailyQuest]: the four tasks of a fresh quest. *)
Definition generateDailyQuest (c : Clock) : DailyQuest :=
  let tasks :=
    [ mkTask "task_breaks" "Complete 8 micro-breaks" 8 0 40 false;
      mkTask "task_5min" "Complete a 5-minute exercise" 1 0 30 false;
      mkTask "task_eyes" "Do 3 eye exercises" 3 0 20 false;
      mkTask "task_variety" "Try 3 different exercises" 3 0 50 false ] in
  mkQuest (now c) tasks (fold_left (fun sum t => sum + task_xp t) tasks 0) false.

Record NextLevelInfo := mkNext {
  next_level : Z;
  next_xpRequired : Z;
  next_xpProgress : Q
}.

(** [getNextLevelInfo].  For a stored level below 1, which no path of the
    service produces, [xpNeeded] is 0 and the quotient is not a number; that
    case is outside the model. *)
Definition getNextLevelInfo (w : World) : NextLevelInfo :=
  let currentLevel := level (userStats w) in
  match List.find (fun l => currentLevel <? lv_level l) LEVELS with
  | None =>
      mkNext currentLevel
        (match last LEVELS with Some l => xpRequired l | None => 0 end) 100
  | Some nextLevelData =>
      let currentLevelData := List.find (fun l => lv_level l =? currentLevel) LEVELS in
      let xpForCurrentLevel :=
        match currentLevelData with Some l => xpRequired l | None => 0 end in
      let xpForNextLevel := xpRequired nextLevelData in
      let xpNeeded := xpForNextLevel - xpForCurrentLevel in
      let xpProgress := xp (userStats w) - xpForCurrentLevel in
      mkNext (lv_level nextLevelData) xpNeeded
        (Qmin 100 ((inject_Z xpProgress / inject_Z xpNeeded) * 100))%Q
  end.

(** [loadOrGenerateDailyQuest], with the assignment the constructor makes
    of its result. *)
Definition loadOrGenerateDailyQuest (c : Clock) (w : World) : World :=
  let generated := saveDailyQuest (set_dailyQuest w (Some (generateDailyQuest c))) in
  match stored_dailyQuest (storage w) with
  | Some stored =>
      if isToday c (quest_date stored) then set_dailyQuest w (Some stored)
      else generated
  | None => generated
  end.

(** The constructor: stats, achievements and quest are read from storage. *)
Definition construct (c : Clock) (w : World) : World :=
  let w := set_userStats w (JS.or_else (stored_userStats (storage w)) defaultStats) in
  let w := set_unlocked w (list_to_set (stored_unlockedAchievements (storage w))) in
  loadOrGenerateDailyQuest c w.

End Gamification.

(** ** ExerciseService.ts *)
Module ExerciseService.

(** How the user ends one step: a button of the step prompt, closing the
    prompt, or the countdown reaching zero first. *)
Inductive StepOutcome := Skip | StopExercise | Dismissed | CountdownExpired.

(** What the user does during one session. *)
Record Session := mkSession {
  startResponse : option string;       (* answer to the "Starting: ..." prompt *)
  stepOutcome : nat -> StepOutcome;    (* outcome of step i (from 0) *)
  celebrationResponse : option string; (* answer to the completion message *)
  startTime : Z;                       (* clock when the session began *)
  activityId : string                  (* identifier generated on recording *)
}.

(** The optional collaborators [setHealthTracker] and
    [setGamificationService] install. *)
Record Refs := mkRefs {
  healthTracker : bool;
  gamificationService : bool
}.

(** [executeStep]: resolves [false] only on 'Stop Exercise'. *)
Definition executeStep (o : StepOutcome) : bool :=
  match o with
  | StopExercise => false
  | _ => true
  end.

(** The step loop of [executeExercise], from step [i] on; the boolean is
    [completed]. *)
Fixpoint runSteps (s : Session) (total : Z) (i : nat) (remaining : list ExerciseStep)
    (w : World) : World * bool :=
  match remaining with
  | [] => (w, true)
  | _ :: rest =>
      let w := show (StepPrompt (Z.of_nat i + 1) total) w in
      if executeStep (stepOutcome s i) then runSteps s total (S i) rest w
      else (w, false)
  end.

(** [showCompletionCelebration]; choosing 'Another Exercise' opens the
    picker, that is, a further session. *)
Definition showCompletionCelebration (s : Session) (exercise : Exercise)
    (xpEarned : Z) (newAchievements : list Achievement) (w : World) : World :=
  let w := show (CompletionCelebration (ex_name exercise) xpEarned
                   (ach_name <$> head newAchievements)) w in
  match celebrationResponse s with
  | Some r =>
      if String.eqb r "View Stats" then show CommandViewStats w
      else if String.eqb r "Another Exercise" then show (ExercisePicker None) w
      else w
  | None => w
  end.

(** [handleExerciseCompletion]; [c] is the clock at completion. *)
Definition handleExerciseCompletion (refs : Refs) (c : Clock) (enabled : bool)
    (s : Session) (exercise : Exercise) (endTime : Z) (w : World) : World :=
  let activity :=
    mkPartialActivity (Some (ex_id exercise)) (Some (ex_name exercise))
      (Some (ex_duration exercise)) (Some (caloriesBurn exercise))
      (Some "vscode") (Some "manual") None None
      (Some (startTime s)) (Some endTime) in
  let w := if healthTracker refs
           then HealthTracker.recordActivity c (activityId s) activity w else w in
  let '(w, xpEarned, newAchievements) :=
    if gamificationService refs then
      let '(w, r) := Gamification.awardExerciseCompletion c enabled exercise w in
      (w, Gamification.xpEarned r, Gamification.newAchievements r)
    else (w, 0, []) in
  showCompletionCelebration s exercise xpEarned newAchievements w.

(** [executeExercise] *)
Definition executeExercise (refs : Refs) (c : Clock) (enabled : bool)
    (s : Session) (exercise : Exercise) (w : World) : World :=
  let w := show (StartPrompt (ex_name exercise)) w in
  if negb (JS.is_string (startResponse s) "Begin") then w
  else
    let '(w, completed) :=
      runSteps s (Z.of_nat (length (steps exercise))) 0 (steps exercise) w in
    if completed
    then handleExerciseCompletion refs c enabled s exercise (now c) w
    else show CancelledMessage w.

(** The exercises behind the items of [createExerciseQuickPickItems]; label,
    description and detail of an item are derived from its exercise. *)
Definition createExerciseQuickPickItems (suggestedDuration : option Z) : list Exercise :=
  match suggestedDuration with
  | Some d =>
      if d =? 0 then EXERCISES
      else
        let targetCategory := if d <=? 60 then Cat1min
                              else if d <=? 180 then Cat3min else Cat5min in
        List.filter (fun ex => sameCategory (category ex) targetCategory) EXERCISES
  | None => EXERCISES
  end.

(** [showExercisePicker]; [selected] is the item the user picks, if any. *)
Definition showExercisePicker (refs : Refs) (c : Clock) (enabled : bool)
    (suggestedDuration : option Z) (selected : option Exercise) (s : Session)
    (w : World) : World * option Exercise :=
  let w := show (ExercisePicker suggestedDuration) w in
  match selected with
  | Some exercise => (executeExercise refs c enabled s exercise w, Some exercise)
  | None => (w, None)
  end.

(** What [executeExerciseById] did: it ran the session of an exercise and
    returned it, or it displayed the error message naming the identifier and
    returned [undefined]. *)
Inductive ByIdAnswer :=
  | Executed (exercise : Exercise)
  | NotFoundError (exerciseId : string).

(** [executeExerciseById] *)
Definition executeExerciseById (refs : Refs) (c : Clock) (enabled : bool)
    (exerciseId : string) (s : Session) (w : World) : World * ByIdAnswer :=
  match getExerciseById exerciseId with
  | Some exercise => (executeExercise refs c enabled s exercise w, Executed exercise)
  | None => (w, NotFoundError exerciseId)
  end.

(** [getRandomExercise]; [rnd] is the draw of [Math.random()]. *)
Definition getRandomExercise (rnd : Q) (category : option Category) : option Exercise :=
  let pool := match category with
              | Some c => getExercisesByCategory c
              | None => EXERCISES
              end in
  let i := Qfloor (rnd * inject_Z (Z.of_nat (length pool)))%Q in
  if i <? 0 then None else pool !! Z.to_nat i.

(** [getRecommendedExercises] *)
Definition getRecommendedExercises (c : Clock) : list Exercise :=
  let hour := getHours c in
  if hour <? 10 then
    List.filter (fun ex => JS.includes "Walk" (ex_name ex)
                           || JS.includes "Stretch" (ex_name ex)) EXERCISES
  else if (14 <? hour) && (hour <? 17) then
    List.filter (fun ex => sameCategory (category ex) Cat3min
                           || JS.includes "Stair" (ex_name ex)) EXERCISES
  else EXERCISES.

End ExerciseService.

(** ** ReminderService.ts *)
Module ReminderService.

(** The settings of [vscode.workspace.getConfiguration('codefit')] the
    service reads, with their defaults. *)
Record Config := mkConfig {
  frequency : string;          (* reminder.frequency, default 'smart' *)
  style : string;              (* reminder.style, default 'toast' *)
  dnd_enabled : bool;          (* doNotDisturb.enabled, default true *)
  dnd_hours : list string      (* doNotDisturb.hours, default ['12:00-13:00'] *)
}.

Definition defaultConfig : Config := mkConfig "smart" "toast" true ["12:00-13:00"].

(** What the surroundings supply to one evaluation. *)
Record Env := mkEnv {
  clock : Clock;
  debugging : bool;            (* vscode.debug.activeDebugSession !== undefined *)
  random1 : Q;                 (* Math.random() of shouldShowReminder *)
  random2 : Q;                 (* Math.random() of getReminderMessage *)
  response : option string     (* the button the user presses, if any *)
}.

(** The object [saveState] writes under 'reminderState'. *)
Record Saved := mkSaved {
  sv_paused : bool;
  sv_snoozedUntil : option Z;
  sv_lastCommitTime : option Z;
  sv_consecutiveWorkMinutes : Z;
  sv_todayBreakCount : Z
}.

Record t := mk {
  paused : bool;
  snoozedUntil : option Z;
  lastActivityTime : Z;
  lastCommitTime : option Z;
  consecutiveWorkMinutes : Z;
  codeInputFrequency : Z;
  todayBreakCount : Z;
  reminderState : option Saved;          (* globalState key 'reminderState' *)
  shown : list UIEvent
}.

Record ReminderContext := mkContext {
  ctx_lastActivityTime : Z;
  ctx_codeInputFrequency : Z;
  ctx_lastCommitTime : option Z;
  isDebugging : bool;
  ctx_consecutiveWorkMinutes : Z;
  ctx_todayBreakCount : Z
}.

Definition display (e : UIEvent) (s : t) : t :=
  mk (paused s) (snoozedUntil s) (lastActivityTime s) (lastCommitTime s)
     (consecutiveWorkMinutes s) (codeInputFrequency s) (todayBreakCount s)
     (reminderState s) (shown s ++ [e]).

(** [saveState] *)
Definition saveState (s : t) : t :=
  mk (paused s) (snoozedUntil s) (lastActivityTime s) (lastCommitTime s)
     (consecutiveWorkMinutes s) (codeInputFrequency s) (todayBreakCount s)
     (Some (mkSaved (paused s) (snoozedUntil s) (lastCommitTime s)
              (consecutiveWorkMinutes s) (todayBreakCount s)))
     (shown s).

(** [pause] *)
Definition pause (s : t) : t :=
  saveState (mk true (snoozedUntil s) (lastActivityTime s) (lastCommitTime s)
               (consecutiveWorkMinutes s) (codeInputFrequency s) (todayBreakCount s)
               (reminderState s) (shown s)).

(** [resume] *)
Definition resume (s : t) : t :=
  saveState (mk false None (lastActivityTime s) (lastCommitTime s)
               (consecutiveWorkMinutes s) (codeInputFrequency s) (todayBreakCount s)
               (reminderState s) (shown s)).

(** [isPaused] *)
Definition isPaused (c : Clock) (s : t) : bool :=
  paused s || match snoozedUntil s with
              | Some u => now c <? u
              | None => false
              end.

(** [snooze] *)
Definition snooze (c : Clock) (minutes : Z) (s : t) : t :=
  saveState (mk (paused s) (Some (now c + minutes * 60 * 1000)) (lastActivityTime s)
               (lastCommitTime s) (consecutiveWorkMinutes s) (codeInputFrequency s)
               (todayBreakCount s) (reminderState s) (shown s)).

(** The two assignments that follow an accepted break:
    [consecutiveWorkMinutes = 0; todayBreakCount++]. *)
Definition breakTaken (s : t) : t :=
  mk (paused s) (snoozedUntil s) (lastActivityTime s) (lastCommitTime s)
     0 (codeInputFrequency s) (todayBreakCount s + 1) (reminderState s) (shown s).

(** [getReminderContext] *)
Definition getReminderContext (e : Env) (s : t) : ReminderContext :=
  mkContext (lastActivityTime s) (codeInputFrequency s) (lastCommitTime s)
    (debugging e) (consecutiveWorkMinutes s) (todayBreakCount s).

(** [shouldShowReminder] *)
Definition shouldShowReminder (cfg : Config) (e : Env) (context : ReminderContext)
    : bool :=
  if isDebugging context then false
  else if 50 <? ctx_codeInputFrequency context then false
  else if String.eqb (frequency cfg) "smart" then
    if 120 <=? ctx_consecutiveWorkMinutes context then true
    else if 90 <=? ctx_consecutiveWorkMinutes context then true
    else if (45 <=? ctx_consecutiveWorkMinutes context)
            && (ctx_todayBreakCount context <? 8)
    then JS.Qltb (5 # 10) (random1 e)
    else
      match ctx_lastCommitTime context with
      | Some t =>
          let timeSinceCommit := now (clock e) - t in
          if (timeSinceCommit <? 5 * 60 * 1000) && (1 * 60 * 1000 <? timeSinceCommit)
          then true else false
      | None => false
      end
  else
    let minutes := JS.parseInt (JS.replace "min" "" (frequency cfg)) in
    JS.geb (JS.Num (ctx_consecutiveWorkMinutes context)) minutes.

(** The severity [showReminder] determines. *)
Definition severityOf (context : ReminderContext) : Severity :=
  if 120 <=? ctx_consecutiveWorkMinutes context then Strong
  else if ctx_consecutiveWorkMinutes context <? 60 then Light
  else Standard.

(** [getReminderMessage] *)
Definition getReminderMessage (e : Env) (severity : Severity) : option string :=
  let pool :=
    match severity with
    | Light =>
        [ "You've been coding for a while. Quick stretch?";
          "Time for a micro-break! Your body will thank you.";
          "Great progress! Take a 1-minute eye break?" ]
    | Standard =>
        [ "Time for a break! You've been coding for 90 minutes.";
          "Your health matters! Take a 3-minute exercise break.";
          "Keep your body as healthy as your code! Break time." ]
    | Strong =>
        [ "⚠️ Health Alert: You need a break NOW! 2+ hours of sitting.";
          "⚠️ Take a break immediately! Your health is at risk.";
          "⚠️ Mandatory break time! Get up and move!" ]
    end in
  let i := Qfloor (random2 e * inject_Z (Z.of_nat (length pool)))%Q in
  if i <? 0 then None else pool !! Z.to_nat i.

(** [getReminderActions] *)
Definition getReminderActions (severity : Severity) : list string :=
  match severity with
  | Strong => ["Take 5-min Break"; "Take 3-min Break"]
  | Standard => ["3-min Exercise"; "Quick Walk"; "Snooze 15min"]
  | Light => ["1-min Stretch"; "Eye Exercise"; "Snooze 30min"]
  end.

(** [handleReminderResponse]; the exercise picker it opens is a session of
    the exercise service. *)
Definition handleReminderResponse (e : Env) (response : string) (s : t) : t :=
  if JS.includes "Snooze" response then
    let minutes := if JS.includes "15" response then 15 else 30 in
    display (SnoozedMessage minutes) (snooze (clock e) minutes s)
  else
    let duration := if JS.includes "5-min" response then 5
                    else if JS.includes "3-min" response then 3 else 1 in
    breakTaken (display (ExercisePicker (Some (duration * 60))) s).

(** [showReminder] *)
Definition showReminder (cfg : Config) (e : Env) (context : ReminderContext) (s : t)
    : t :=
  let severity := severityOf context in
  let message := getReminderMessage e severity in
  let actions := getReminderActions severity in
  if String.eqb (style cfg) "toast" || String.eqb (style cfg) "statusBar" then
    let s := display (ReminderNotification severity message actions) s in
    match response e with
    | Some r => if String.eqb r "" then s else handleReminderResponse e r s
    | None => s
    end
  else s.

(** The body of the loop of [isDoNotDisturbTime] up to the comparison:
    start and end of a range in minutes of the day.  [None] is the
    [TypeError] of [end.split] when the range holds no ['-']. *)
Definition rangeBounds (range : string) : option (JS.num * JS.num) :=
  match JS.split "-" range with
  | start :: end_ :: _ =>
      let startParts := JS.Number <$> JS.split ":" start in
      let endParts := JS.Number <$> JS.split ":" end_ in
      let startHour := JS.or_else (startParts !! 0%nat) JS.NaN in
      let startMin := JS.or_else (startParts !! 1%nat) JS.NaN in
      let endHour := JS.or_else (endParts !! 0%nat) JS.NaN in
      let endMin := JS.or_else (endParts !! 1%nat) JS.NaN in
      Some (JS.add (JS.mul startHour (JS.Num 60)) startMin,
            JS.add (JS.mul endHour (JS.Num 60)) endMin)
  | _ => None
  end.

Fixpoint dndLoop (currentMinutes : Z) (hours : list string) : option bool :=
  match hours with
  | [] => Some false
  | range :: rest =>
      match rangeBounds range with
      | None => None
      | Some (startMinutes, endMinutes) =>
          if JS.geb (JS.Num currentMinutes) startMinutes
             && JS.leb (JS.Num currentMinutes) endMinutes
          then Some true
          else dndLoop currentMinutes rest
      end
  end.

(** [isDoNotDisturbTime]; [None] when the method throws. *)
Definition isDoNotDisturbTime (cfg : Config) (c : Clock) : option bool :=
  if negb (dnd_enabled cfg) then Some false
  else dndLoop (getHours c * 60 + getMinutes c) (dnd_hours cfg).

(** [checkAndNotify], the body of the one-minute timer.  When
    [isDoNotDisturbTime] throws, the promise is rejected and nothing else
    runs. *)
Definition checkAndNotify (cfg : Config) (e : Env) (s : t) : t :=
  if isPaused (clock e) s then s
  else
    match isDoNotDisturbTime cfg (clock e) with
    | None => s
    | Some true => s
    | Some false =>
        let s := mk (paused s) (snoozedUntil s) (lastActivityTime s)
                    (lastCommitTime s) (consecutiveWorkMinutes s + 1)
                    (codeInputFrequency s) (todayBreakCount s) (reminderState s)
                    (shown s) in
        let context := getReminderContext e s in
        let s := if shouldShowReminder cfg e context
                 then showReminder cfg e context s else s in
        saveState s
    end.

(** [detectCommitEmotion] *)
Definition detectCommitEmotion (message : string) : Emotion :=
  let lower := JS.toLowerCase message in
  let celebrationWords := ["finally"; "done"; "complete"; "success"; "yay"; "🎉"] in
  let frustrationWords := ["fix"; "bug"; "damn"; "wtf"; "issue"] in
  let milestoneWords := ["release"; "v1.0"; "launch"; "deploy"; "merge"] in
  if existsb (fun word => JS.includes word lower) celebrationWords then Celebration
  else if existsb (fun word => JS.includes word lower) frustrationWords then Frustration
  else if existsb (fun word => JS.includes word lower) milestoneWords then Milestone
  else Normal.

(** [showPostCommitReminder], the body of the timer [notifyCommit] arms. *)
Definition showPostCommitReminder (e : Env) (commitMessage : string) (s : t) : t :=
  let emotion := detectCommitEmotion commitMessage in
  let s := display (PostCommitNotification emotion) s in
  match response e with
  | Some r =>
      if String.eqb r "" || String.eqb r "Later" then s
      else
        let duration := if JS.includes "2-min" r then 120 else 60 in
        breakTaken (display (ExercisePicker (Some duration)) s)
  | None => s
  end.

(** [notifyCommit], up to arming the timer. *)
Definition notifyCommit (c : Clock) (s : t) : t :=
  saveState (mk (paused s) (snoozedUntil s) (lastActivityTime s) (Some (now c))
               (consecutiveWorkMinutes s) (codeInputFrequency s) (todayBreakCount s)
               (reminderState s) (shown s)).

(** A commit notification followed by its timer firing five seconds
    later, with nothing in between. *)
Definition commitPath (e : Env) (commitMessage : string) (s : t) : t :=
  let s := notifyCommit (clock e) s in
  showPostCommitReminder
    (mkEnv (mkClock (now (clock e) + 5000) (tz (clock e))) (debugging e)
           (random1 e) (random2 e) (response e))
    commitMessage s.

(** The initial field values of the class. *)
Definition initial (c : Clock) : t :=
  mk false None (now c) None 0 0 0 None [].

(** A stored time of 0 reads back as absent: [state.x ? new Date(state.x) :
    undefined]. *)
Definition truthyTime (t : option Z) : option Z :=
  match t with
  | Some n => if n =? 0 then None else Some n
  | None => None
  end.

(** [loadState] *)
Definition loadState (s : t) : t :=
  match reminderState s with
  | Some state =>
      mk (sv_paused state) (truthyTime (sv_snoozedUntil state)) (lastActivityTime s)
         (truthyTime (sv_lastCommitTime state))
         (JS.or_number (Some (sv_consecutiveWorkMinutes state)) 0)
         (codeInputFrequency s)
         (JS.or_number (Some (sv_todayBreakCount state)) 0)
         (reminderState s) (shown s)
  | None => s
  end.

(** The constructor on the stored state [stored]: field initialisers, then
    [loadState]. *)
Definition construct (c : Clock) (stored : option Saved) : t :=
  loadState (mk false None (now c) None 0 0 0 stored []).

(** The listener [setupActivityTracking] installs on document changes.
    [recentInputs] is the array the listener closes over; [changes] holds the
    [text.length] of every content change of the event. *)
Definition onDidChangeTextDocument (c : Clock) (changes : list Z)
    (st : list Z * t) : list Z * t :=
  let '(recentInputs, s) := st in
  let charCount := fold_left (fun sum n => sum + n) changes 0 in
  let recentInputs := recentInputs ++ [charCount] in
  let recentInputs := if (60 <? length recentInputs)%nat
                      then drop 1 recentInputs else recentInputs in
  (recentInputs,
   mk (paused s) (snoozedUntil s) (now c) (lastCommitTime s)
      (consecutiveWorkMinutes s) (fold_left (fun a b => a + b) recentInputs 0)
      (todayBreakCount s) (reminderState s) (shown s)).

(** A run of the one-minute timer: one evaluation per element of [envs]. *)
Definition ticks (cfg : Config) (envs : list Env) (s : t) : t :=
  fold_left (fun s e => checkAndNotify cfg e s) envs s.

End ReminderService.

(** ** GitIntegration.ts *)
Module GitIntegration.

Record t := mk {
  enabled : bool;
  lastCommitHash : option string
}.

(** [disable] *)
Definition disable (g : t) : t := mk false (lastCommitHash g).

(** A string used as a condition: [undefined] and [''] are falsy. *)
Definition truthy (a : option string) : bool :=
  match a with Some s => negb (String.eqb s "") | None => false end.

(** [onRepositoryStateChange] for one repository event.  [commitReminder]
    is the setting [git.commitReminder], [head] is [repo.state.HEAD?.commit],
    [commit] the message [repo.getCommit('HEAD')] resolves to ([None] when it
    rejects, which the handler catches).  The answer holds the message passed
    to [notifyCommit], if any; the statistics message [showCommitStats] may
    display after it changes no field and is left out. *)
Definition onRepositoryStateChange (commitReminder : bool) (head : option string)
    (commit : option string) (g : t) : t * option string :=
  if negb (enabled g) then (g, None)
  else if negb commitReminder then (g, None)
  else
    match head with
    | Some currentHash =>
        if String.eqb currentHash "" then (g, None)
        else if truthy (lastCommitHash g)
                && negb (JS.is_string (lastCommitHash g) currentHash)
        then match commit with
             | Some message => (mk (enabled g) (Some currentHash), Some message)
             | None => (g, None)
             end
        else (mk (enabled g) (Some currentHash), None)
    | None => (g, None)
    end.

End GitIntegration.

(** ** Commands that span two services *)
Module Commands.

(** [HealthReminderService.triggerBreakNow]: the picker of the exercise
    service, then the break bookkeeping when it returned an exercise. *)
Definition triggerBreakNow (refs : ExerciseService.Refs) (c : Clock) (enabled : bool)
    (selected : option Exercise) (session : ExerciseService.Session)
    (st : ReminderService.t * World) : ReminderService.t * World :=
  let '(r, w) := st in
  let '(w, exercise) :=
    ExerciseService.showExercisePicker refs c enabled None selected session w in
  match exercise with
  | Some _ => (ReminderService.saveState (ReminderService.breakTaken r), w)
  | None => (r, w)
  end.

End Commands.

(** * Properties *)

Import HealthTracker.

(** ** Sample data *)

Definition utc (t : Z) : Clock := mkClock t 0.
Definition minutes (m : Z) : Z := m * 60000.

Definition emptyWorld : World :=
  mkWorld (mkStorage [] None [] None) defaultStats defaultStats ∅ None [].

Definition with_log (w : World) (log : list Activity) : World :=
  set_storage w (mkStorage log (stored_userStats (storage w))
                   (stored_unlockedAchievements (storage w))
                   (stored_dailyQuest (storage w))).

(** A completed exercise that started [s] and ended [e] minutes after the
    epoch, was logged at its end, and lasted [d] seconds. *)
Definition sampleActivity (ex : string) (s e d : Z) : Activity :=
  mkActivity "a" "local" "exercise" ex ex d 0 (calculatePoints d)
    (mkPointsBreakdown (calculateBasePoints d) [] 0) "vscode" "manual"
    None None (minutes s) (minutes e) (minutes e).

(** One exercise on the first day (minutes 0 to 1439 after the epoch). *)
Definition yesterdayActivity : Activity := sampleActivity "eye_exercise" 100 105 60.

(** Eight five-minute breaks of three kinds on the second day, at most
    fifty minutes apart, the last one ending at 06:45. *)
Definition todayLog : list Activity :=
  [ sampleActivity "eye_exercise" 1490 1495 300;
    sampleActivity "neck_stretch" 1540 1545 300;
    sampleActivity "desk_squats" 1590 1595 300;
    sampleActivity "eye_exercise" 1640 1645 300;
    sampleActivity "neck_stretch" 1690 1695 300;
    sampleActivity "desk_squats" 1740 1745 300;
    sampleActivity "eye_exercise" 1790 1795 300;
    sampleActivity "neck_stretch" 1840 1845 300 ].

Definition busyDay : World := with_log emptyWorld todayLog.

Definition busyDayWithHistory : World :=
  set_currentStats (with_log emptyWorld (yesterdayActivity :: todayLog))
    (mkUserStats 40 3 5 20 60 200 200 2 120).

(** 06:50 and 10:00 on the second day. *)
Definition at0650 : Clock := utc (minutes 1850).
Definition at1000 : Clock := utc (minutes 2040).

(** A log of exactly 1000 entries, numbered by their start minute. *)
Definition fullLog : list Activity :=
  (fun i => sampleActivity "eye_exercise" (Z.of_nat i) (Z.of_nat i) 60) <$> seq 0 1000.

Definition newActivity : Activity := sampleActivity "neck_stretch" 2000 2001 60.

(** The tracker on the second day of use: one exercise the day before,
    which started the streak. *)
Definition secondDay : World :=
  set_currentStats (with_log emptyWorld [yesterdayActivity])
    (mkUserStats 100 1 1 1 1 5 5 1 0).

Definition partialEye (s e : Z) : PartialActivity :=
  mkPartialActivity (Some "eye_exercise") (Some "20-20-20 Eye Exercise") (Some 60)
    (Some 2) (Some "vscode") (Some "manual") None None
    (Some (minutes s)) (Some (minutes e)).

(** [EXERCISES[0]] of the catalog (constants/exercises.ts). *)
Definition eye_exercise : Exercise :=
  mkExercise "eye_exercise" "20-20-20 Eye Exercise" Cat1min 60
    [ mkStep "Look at an object 20 feet (6 meters) away" 20;
      mkStep "Keep looking at the distant object" 20;
      mkStep "Return to your screen" 20 ]
    ["Reduces eye strain"; "Prevents computer vision syndrome"; "Relaxes eye muscles"]
    2.

(** A user on a seven-day streak who has not unlocked anything yet, with
    the quest of the day untouched. *)
Definition weekStreak : World :=
  set_dailyQuest
    (set_userStats emptyWorld (mkUserStats 100 7 7 10 10 0 0 1 0))
    (Some (Gamification.generateDailyQuest at1000)).

(** A first-time user with the quest of the day untouched. *)
Definition newcomer : World :=
  set_dailyQuest emptyWorld (Some (Gamification.generateDailyQuest at1000)).

(** A session that starts ten minutes before 10:00, in which the user
    answers every step with 'Skip'. *)
Definition skipAll : ExerciseService.Session :=
  ExerciseService.mkSession (Some "Begin") (fun _ => ExerciseService.Skip)
    (Some "Back to Code") (minutes 2030) "activity_1".

(** The same session, stopped at the second step. *)
Definition stopAtSecond : ExerciseService.Session :=
  ExerciseService.mkSession (Some "Begin")
    (fun i => if (i =? 1)%nat then ExerciseService.StopExercise else ExerciseService.Skip)
    None (minutes 2030) "activity_1".

(** The references [activate] installs right after constructing the
    exercise service ([setHealthTracker], [setGamificationService]). *)
Definition wired : ExerciseService.Refs := ExerciseService.mkRefs true true.

(** ** Auxiliary notions *)

(** Two states of the services that differ at most in what was displayed. *)
Definition sameData (w w' : World) : Prop :=
  storage w' = storage w /\
  currentStats w' = currentStats w /\
  userStats w' = userStats w /\
  unlockedAchievements w' = unlockedAchievements w /\
  dailyQuest w' = dailyQuest w.

(** The suppression conditions of the reminder policy: paused or snoozed,
    inside a Do-Not-Disturb window, debugging, or input intensity above 50. *)
Definition suppressed (cfg : ReminderService.Config) (e : ReminderService.Env)
    (s : ReminderService.t) : bool :=
  ReminderService.isPaused (ReminderService.clock e) s
  || bool_decide (ReminderService.isDoNotDisturbTime cfg (ReminderService.clock e)
                  = Some true)
  || ReminderService.debugging e
  || (50 <? ReminderService.codeInputFrequency s).

(** The quiet surroundings of an evaluation at 10:00: no debug session, no
    answer from the user. *)
Definition quietEnv (rnd : Q) : ReminderService.Env :=
  ReminderService.mkEnv at1000 false rnd 0%Q None.

Definition smartContext (workMinutes breaks : Z) (lastCommit : option Z)
    : ReminderService.ReminderContext :=
  ReminderService.mkContext (minutes 2040) 0 lastCommit false workMinutes breaks.

Definition nightRange : ReminderService.Config :=
  ReminderService.mkConfig "smart" "toast" true ["22:00-06:00"].

Definition at2330 : Clock := utc (minutes (1440 + 23 * 60 + 30)).

(** ** Notions used by the further properties *)

Definition sumZ (l : list Z) : Z := foldr Z.add 0 l.

(** The XP one call of [updateDailyQuestProgress] grants on quest [q]: the
    XP of the tasks it completes, plus the bonus of 50 when it completes the
    quest. *)
Definition questGain (ex : Exercise) (q : DailyQuest) : Z :=
  sumZ ((fun t => snd (Gamification.progressTask ex t)) <$> tasks q)
  + (if forallb task_completed
          ((fun t => fst (Gamification.progressTask ex t)) <$> tasks q)
        && negb (quest_completed q)
     then 50 else 0).

(** The step prompts numbered 1 to [k] of an exercise of [n] steps. *)
Definition stepPrompts (n : Z) (k : nat) : list UIEvent :=
  (fun i => StepPrompt (Z.of_nat i + 1) n) <$> seq 0 k.

(** A quest with a single task, one break away from completion. *)
Definition oneTaskQuest : DailyQuest :=
  mkQuest (minutes 2040) [mkTask "task_breaks" "Complete 1 micro-break" 1 0 40 false]
    40 false.

Definition oneTaskWorld : World := set_dailyQuest emptyWorld (Some oneTaskQuest).

(** ** Tactics for the further properties *)

Ltac split_levels :=
  repeat match goal with
         | |- context [?a <? ?b] => destruct (Z.ltb_spec a b)
         | |- context [?a =? ?b] => destruct (Z.eqb_spec a b)
         end.

(** Finds the entry of the level table with the level a goal asks for. *)
Ltac pick_entry :=
  let rec go ls :=
    lazymatch ls with
    | ?l :: ?rest =>
        first [ exists l; split; [repeat constructor | reflexivity] | go rest ]
    end in
  let ls := eval unfold LEVELS in LEVELS in go ls.

(** ** Tactics for the level table *)

Ltac open_level_table :=
  unfold Gamification.findCurrentLevel;
  let r := eval vm_compute in (rev LEVELS) in change (rev LEVELS) with r;
  cbn [Gamification.scanLevels xpRequired lv_level].

Ltac split_thresholds :=
  repeat match goal with
         | |- context [?a <=? ?b] => destruct (Z.leb_spec a b)
         end.

(** Finds the entry of the table a goal [exists l, l ∈ LEVELS /\ _] needs. *)
Ltac pick_level :=
  let rec go ls :=
    lazymatch ls with
    | ?l :: ?rest =>
        first [ exists l; split;
                [ unfold LEVELS; repeat constructor
                | cbn [xpRequired lv_level]; split; [lia | reflexivity] ]
              | go rest ]
    end in
  let ls := eval unfold LEVELS in LEVELS in go ls.

(** ** Health score *)

Lemma breakPenalty_range dm : 0 <= breakPenalty dm <= 40.
Proof. unfold breakPenalty. repeat case_match; lia. Qed.

Lemma sittingPenalty_range dm : 0 <= sittingPenalty dm <= 30.
Proof. unfold sittingPenalty. repeat case_match; lia. Qed.

Lemma durationPenalty_range dm : 0 <= durationPenalty dm <= 15.
Proof. unfold durationPenalty. repeat case_match; lia. Qed.

Lemma varietyPenalty_range today : 0 <= varietyPenalty today <= 15.
Proof. unfold varietyPenalty. repeat case_match; lia. Qed.

(** The score is 100 minus the four penalties: they add up to at most 100,
    so the final clamp never changes the value. *)
Lemma calculateHealthScore_sum c w :
  let today := getActivitiesForDate c w in
  let dm := calculateDailyMetrics c w today in
  calculateHealthScore c w =
  100 - breakPenalty dm - sittingPenalty dm - durationPenalty dm - varietyPenalty today.
Proof.
  intros today dm. unfold calculateHealthScore. fold today. fold dm.
  pose proof (breakPenalty_range dm). pose proof (sittingPenalty_range dm).
  pose proof (durationPenalty_range dm). pose proof (varietyPenalty_range today).
  lia.
Qed.

(** The stats of the tracker enter the daily metrics only through the
    [healthScore] field, which the score does not read. *)
Lemma penalties_ignore_stats c w w' acts :
  let dm := calculateDailyMetrics c w acts in
  let dm' := calculateDailyMetrics c w' acts in
  breakPenalty dm' = breakPenalty dm /\
  sittingPenalty dm' = sittingPenalty dm /\
  durationPenalty dm' = durationPenalty dm.
Proof. repeat split. Qed.

(** C1 (as stated, refuted): the same activities of the day, evaluated at
    06:50 and at 10:00 of that day, give the scores 100 and 70, because the
    sitting gap runs from the last activity to the current instant.  The
    score is not a function of the activity set and the 480-minute
    assumption alone. *)
Lemma C1_same_activities_different_scores :
  getActivitiesForDate at0650 busyDay = getActivitiesForDate at1000 busyDay /\
  calculateHealthScore at0650 busyDay = 100 /\
  calculateHealthScore at1000 busyDay = 70.
Proof. repeat split; vm_compute; reflexivity. Qed.

(** C1 (amended): the health score is an integer in [0,100], and it is
    determined by the activities of the current day together with the clock
    reading of the evaluation: whatever else the tracker holds (other days'
    activities, its stats), two evaluations at the same instant over the same
    activities of the day agree. *)
Theorem C1_score_range_and_inputs (c : Clock) (w w' : World)
    (Hday : getActivitiesForDate c w' = getActivitiesForDate c w) :
  0 <= calculateHealthScore c w <= 100 /\
  calculateHealthScore c w' = calculateHealthScore c w.
Proof.
  split.
  - unfold calculateHealthScore. lia.
  - rewrite !calculateHealthScore_sum. rewrite Hday.
    destruct (penalties_ignore_stats c w w' (getActivitiesForDate c w)) as (-> & -> & ->).
    reflexivity.
Qed.

(** The busy day with and without an older activity and other stats. *)
Lemma C1_score_range_and_inputs_witness :
  0 <= calculateHealthScore at1000 busyDay <= 100 /\
  calculateHealthScore at1000 busyDayWithHistory = calculateHealthScore at1000 busyDay.
Proof.
  apply (C1_score_range_and_inputs at1000 busyDay busyDayWithHistory).
  vm_compute. reflexivity.
Defined.

(** C7: with no activity recorded for the current day the score is exactly
    0: no break out of 8 recommended costs 40, the sitting gap defaults to
    480 minutes and costs 30, zero exercise minutes cost 15 and zero distinct
    exercises cost 15. *)
Theorem C7_no_activity_scores_zero (c : Clock) (w : World)
    (Hnone : getActivitiesForDate c w = []) :
  let dm := calculateDailyMetrics c w (getActivitiesForDate c w) in
  breaksTaken dm = 0 /\ breaksRecommended dm = 8 /\ breakPenalty dm = 40 /\
  longestSittingStreak dm = 480 /\ sittingPenalty dm = 30 /\
  exerciseDuration dm = 0 /\ durationPenalty dm = 15 /\
  uniqueExercises (getActivitiesForDate c w) = 0 /\
  varietyPenalty (getActivitiesForDate c w) = 15 /\
  calculateHealthScore c w = 0.
Proof.
  intros dm. subst dm. rewrite calculateHealthScore_sum. rewrite Hnone.
  repeat split; reflexivity.
Qed.

(** A tracker whose only activity is from the day before. *)
Lemma C7_no_activity_scores_zero_witness :
  calculateHealthScore at1000 secondDay = 0.
Proof.
  apply (C7_no_activity_scores_zero at1000 secondDay).
  vm_compute. reflexivity.
Defined.

(** ** Activity log *)

Lemma pushCapped_length (log : list Activity) (a : Activity) :
  (length (pushCapped log a) <= 1000)%nat.
Proof.
  unfold pushCapped. destruct (Nat.ltb_spec 1000 (length (log ++ [a]))) as [Hlt | Hle].
  - rewrite length_drop. lia.
  - exact Hle.
Qed.

Lemma pushCapped_full (log : list Activity) (a : Activity) :
  length log = 1000%nat -> pushCapped log a = drop 1 log ++ [a].
Proof.
  intros Hlen. unfold pushCapped.
  assert (Hl : length (log ++ [a]) = 1001%nat) by (rewrite length_app, Hlen; reflexivity).
  rewrite Hl.
  replace (1000 <? 1001)%nat with true by (symmetry; apply Nat.ltb_lt; lia).
  replace (1001 - 1000)%nat with 1%nat by lia.
  rewrite drop_app_le by lia. reflexivity.
Qed.

Lemma pushCapped_append (log : list Activity) (a : Activity) :
  (length log < 1000)%nat -> pushCapped log a = log ++ [a].
Proof.
  intros Hlen. unfold pushCapped.
  destruct (Nat.ltb_spec 1000 (length (log ++ [a]))) as [Hlt | Hle]; [|reflexivity].
  rewrite length_app in Hlt. simpl in Hlt. lia.
Qed.

(** C9: saving onto a log of 1000 entries drops the oldest entry and puts
    the new one last, so the survivors keep their order and the length stays
    1000; saving onto a shorter log is a pure append; the stored log never
    has more than 1000 entries. *)
Theorem C9_activity_log_cap (w : World) (a : Activity) :
  let log := stored_activities (storage w) in
  let log' := stored_activities (storage (saveActivity a w)) in
  (length log = 1000%nat -> log' = drop 1 log ++ [a] /\ length log' = 1000%nat) /\
  ((length log < 1000)%nat -> log' = log ++ [a]) /\
  (length log' <= 1000)%nat.
Proof.
  cbn. unfold getActivities. repeat split.
  - apply pushCapped_full; assumption.
  - rewrite pushCapped_full by assumption.
    rewrite length_app, length_drop. simpl. lia.
  - apply pushCapped_append.
  - apply pushCapped_length.
Qed.

(** The 1001st activity on a full log, and the first one on an empty log. *)
Lemma C9_activity_log_cap_witness :
  (stored_activities (storage (saveActivity newActivity (with_log emptyWorld fullLog)))
     = drop 1 fullLog ++ [newActivity] /\
   length (stored_activities
             (storage (saveActivity newActivity (with_log emptyWorld fullLog)))) = 1000%nat) /\
  stored_activities (storage (saveActivity newActivity emptyWorld)) = [] ++ [newActivity].
Proof.
  split.
  - apply (proj1 (C9_activity_log_cap (with_log emptyWorld fullLog) newActivity)).
    vm_compute. reflexivity.
  - apply (proj1 (proj2 (C9_activity_log_cap emptyWorld newActivity))).
    vm_compute. lia.
Defined.

(** ** Streak *)

(** The half of the day rule that holds: once the streak is positive, a
    further update on a day without activity the day before leaves it alone. *)
Lemma streakTransition_no_yesterday (s : UserStats) :
  0 < streak s ->
  streak (streakTransition true false s) = streak s.
Proof.
  intros Hpos. unfold streakTransition. simpl.
  destruct (Z.eqb_spec (streak s) 0) as [E | _]; [lia|].
  case_match; reflexivity.
Qed.

(** C4 (the code departs from it): with an activity on the day before,
    every update run on a day with activity adds one to the streak, also when
    today's first activity was already counted.  On the second day of use the
    first recorded exercise takes the streak from 1 to 2 and the second one,
    the same day, from 2 to 3. *)
Theorem C4_second_same_day_activity_increments :
  (forall s, streak (streakTransition true true s) = streak s + 1) /\
  let first := recordActivity at0650 "activity_1" (partialEye 1845 1846) secondDay in
  let second := recordActivity at1000 "activity_2" (partialEye 2035 2036) first in
  hasActivityToday at1000 first = true /\
  streak (currentStats secondDay) = 1 /\
  streak (currentStats first) = 2 /\
  streak (currentStats second) = 3.
Proof.
  split.
  - intros s. unfold streakTransition. simpl. case_match; reflexivity.
  - vm_compute. repeat split; reflexivity.
Qed.

(** ** Levels *)

Import Gamification.

Lemma findCurrentLevel_mono (x y : Z) :
  x <= y -> findCurrentLevel x <= findCurrentLevel y.
Proof. intros Hxy. open_level_table. split_thresholds; lia. Qed.

(** The scan returns the highest level of the table whose threshold is
    reached, and level 1 below every threshold. *)
Lemma findCurrentLevel_highest (x : Z) :
  (forall l, l ∈ LEVELS -> xpRequired l <= x -> lv_level l <= findCurrentLevel x) /\
  (findCurrentLevel x = 1 \/
   exists l, l ∈ LEVELS /\ xpRequired l <= x /\ lv_level l = findCurrentLevel x).
Proof.
  split.
  - intros l Hl Hreq. unfold LEVELS in Hl.
    repeat (apply elem_of_cons in Hl as [-> | Hl]);
      try (apply elem_of_nil in Hl; contradiction);
      cbn [xpRequired lv_level] in *; open_level_table; split_thresholds; lia.
  - open_level_table. split_thresholds; try lia;
      first [ left; reflexivity | right; pick_level ].
Qed.

(** C8: the level lookup is inclusive at the threshold: 0 XP and 99 XP are
    level 1, 100 XP is level 2. *)
Theorem C8_level_boundaries :
  findCurrentLevel 0 = 1 /\ findCurrentLevel 99 = 1 /\ findCurrentLevel 100 = 2.
Proof. repeat split; reflexivity. Qed.

(** What [awardExerciseCompletion] does after the level check leaves the
    stored level alone. *)
Lemma checkOne_level c ex acc a :
  level (userStats (fst (checkOne c ex acc a))) = level (userStats (fst acc)).
Proof.
  destruct acc as [w news]. unfold checkOne.
  repeat case_match; reflexivity.
Qed.

Lemma checkAchievements_level c ex w :
  level (userStats (fst (checkAchievements c ex w))) = level (userStats w).
Proof.
  unfold checkAchievements.
  change (level (userStats w)) with (level (userStats (fst (w, @nil Achievement)))).
  generalize (w, @nil Achievement). generalize ACHIEVEMENTS.
  induction l as [| a l IH]; intros acc; [reflexivity|].
  cbn [fold_left]. rewrite IH. apply checkOne_level.
Qed.

Lemma updateDailyQuestProgress_level ex w :
  level (userStats (updateDailyQuestProgress ex w)) = level (userStats w).
Proof.
  unfold updateDailyQuestProgress.
  destruct (dailyQuest w) as [q|]; [|reflexivity].
  destruct (progressTasks ex (tasks q)) as [ts gained].
  destruct (forallb task_completed ts && negb (quest_completed q)); reflexivity.
Qed.

Lemma notifications_userStats (news : list Achievement) (w : World) :
  userStats (fold_left (fun w a => show (AchievementNotification (ach_id a)) w) news w)
  = userStats w.
Proof.
  revert w. induction news as [| a news IH]; intros w; [reflexivity|].
  cbn [fold_left]. rewrite IH. reflexivity.
Qed.

Lemma checkAndHandleLevelUp_level w :
  level (userStats (fst (checkAndHandleLevelUp w)))
  = Z.max (level (userStats w)) (findCurrentLevel (xp (userStats w))).
Proof.
  unfold checkAndHandleLevelUp.
  destruct (Z.ltb_spec (level (userStats w)) (findCurrentLevel (xp (userStats w))));
    cbn [fst set_userStats userStats with_level level]; lia.
Qed.

Lemma awardExerciseCompletion_level c enabled ex w :
  level (userStats (fst (awardExerciseCompletion c enabled ex w)))
  = Z.max (level (userStats w))
      (findCurrentLevel (xp (userStats w) + (calculateExerciseXP ex + calculateBonusXP c w))).
Proof.
  unfold awardExerciseCompletion.
  set (w1 := set_userStats w _).
  pose proof (checkAndHandleLevelUp_level w1) as Hup.
  destruct (checkAndHandleLevelUp w1) as [w2 up]. cbn [fst] in Hup.
  pose proof (checkAchievements_level c ex w2) as Hach.
  destruct (checkAchievements c ex w2) as [w3 news]. cbn [fst] in Hach |- *.
  assert (Hfin : forall w', level (userStats w') = level (userStats w3) ->
            level (userStats (fold_left
               (fun w a => show (AchievementNotification (ach_id a)) w) news w'))
            = level (userStats w3)).
  { intros w' Hw'. rewrite notifications_userStats. exact Hw'. }
  rewrite Hfin.
  - rewrite Hach, Hup. reflexivity.
  - destruct up; cbn; apply updateDailyQuestProgress_level.
Qed.

Lemma calculateBonusXP_nonneg c w : 0 <= calculateBonusXP c w.
Proof.
  unfold calculateBonusXP.
  destruct ((6 <=? getHours c) && (getHours c <? 8));
    destruct (Z.leb_spec 7 (streak (userStats w))); try lia.
  all: pose proof (Z.div_pos (streak (userStats w)) 7); lia.
Qed.

Lemma calculateExerciseXP_pos ex : 0 < calculateExerciseXP ex.
Proof. unfold calculateExerciseXP, baseTable. destruct (category ex); lia. Qed.

(** C5 (as stated, refuted): a user on a seven-day streak completes a
    one-minute exercise at 10:00.  The exercise is worth 7 XP, the level check
    keeps level 1, then the streak achievement adds 100 XP: the call returns
    with 107 XP and level 1, while the lookup on 107 XP is level 2. *)
Lemma C5_level_behind_xp :
  let w' := fst (awardExerciseCompletion at1000 true eye_exercise weekStreak) in
  xp (userStats w') = 107 /\
  level (userStats w') = 1 /\
  findCurrentLevel (xp (userStats w')) = 2.
Proof. vm_compute. repeat split; reflexivity. Qed.

(** C5 (amended): when [awardExerciseCompletion] returns, the stored level
    is the larger of the level at entry and the lookup on the XP at entry plus
    the base and bonus XP of the exercise: the lookup runs once, before
    achievement rewards and quest XP are added.  Hence the stored level
    agrees with the lookup on the final XP whenever the call added no
    achievement or quest XP and the level at entry was not above the lookup
    on the XP at entry. *)
Theorem C5_level_after_award (c : Clock) (enabled : bool) (ex : Exercise) (w : World) :
  let w' := fst (awardExerciseCompletion c enabled ex w) in
  let awarded := xp (userStats w) + (calculateExerciseXP ex + calculateBonusXP c w) in
  level (userStats w') = Z.max (level (userStats w)) (findCurrentLevel awarded) /\
  (level (userStats w) <= findCurrentLevel (xp (userStats w)) ->
   xp (userStats w') = awarded ->
   level (userStats w') = findCurrentLevel (xp (userStats w'))).
Proof.
  intros w' awarded. subst w'.
  pose proof (awardExerciseCompletion_level c enabled ex w) as Hlevel.
  fold awarded in Hlevel. split; [exact Hlevel|].
  intros Hentry Hxp. rewrite Hlevel, Hxp.
  pose proof (calculateBonusXP_nonneg c w). pose proof (calculateExerciseXP_pos ex).
  pose proof (findCurrentLevel_mono (xp (userStats w)) awarded ltac:(subst awarded; lia)).
  lia.
Qed.

(** A first-time user completes a one-minute exercise at 10:00: 5 XP, no
    achievement, no quest task finished. *)
Lemma C5_level_after_award_witness :
  level (userStats (fst (awardExerciseCompletion at1000 true eye_exercise newcomer)))
  = findCurrentLevel
      (xp (userStats (fst (awardExerciseCompletion at1000 true eye_exercise newcomer)))).
Proof.
  apply (proj2 (C5_level_after_award at1000 true eye_exercise newcomer)).
  - vm_compute. discriminate.
  - vm_compute. reflexivity.
Defined.

(** ** Exercise sessions *)

Import ExerciseService.

Lemma sameData_refl w : sameData w w.
Proof. repeat split. Qed.

Lemma sameData_show e w w' : sameData w w' -> sameData w (show e w').
Proof. intros H. exact H. Qed.

Lemma runSteps_sameData s total rem : forall i w,
  sameData w (fst (runSteps s total i rem w)).
Proof.
  induction rem as [| st rem IH]; intros i w; cbn [runSteps].
  - apply sameData_refl.
  - destruct (executeStep (stepOutcome s i)).
    + specialize (IH (S i) (show (StepPrompt (Z.of_nat i + 1) total) w)). exact IH.
    + cbn [fst]. apply sameData_show, sameData_refl.
Qed.

Lemma runSteps_stopped s total rem : forall i w k,
  (k < length rem)%nat -> stepOutcome s (i + k) = StopExercise ->
  snd (runSteps s total i rem w) = false.
Proof.
  induction rem as [| st rem IH]; intros i w k Hk Hstop; cbn [length] in Hk; [lia|].
  cbn [runSteps].
  destruct (executeStep (stepOutcome s i)) eqn:Hstep; [|reflexivity].
  destruct k as [| k].
  - rewrite Nat.add_0_r in Hstop. rewrite Hstop in Hstep. discriminate.
  - apply (IH (S i) _ k); [lia|]. rewrite <- Hstop. f_equal. lia.
Qed.


(** The gamification service never touches the activity log. *)
Lemma checkAchievements_activities c ex w :
  stored_activities (storage (fst (checkAchievements c ex w)))
  = stored_activities (storage w).
Proof.
  unfold checkAchievements.
  change (stored_activities (storage w))
    with (stored_activities (storage (fst (w, @nil Achievement)))).
  generalize (w, @nil Achievement). generalize ACHIEVEMENTS.
  induction l as [| a l IH]; intros acc; [reflexivity|].
  cbn [fold_left]. rewrite IH. destruct acc as [w0 news]. unfold checkOne.
  repeat case_match; reflexivity.
Qed.

Lemma updateDailyQuestProgress_activities ex w :
  stored_activities (storage (updateDailyQuestProgress ex w))
  = stored_activities (storage w).
Proof.
  unfold updateDailyQuestProgress.
  destruct (dailyQuest w) as [q|]; [|reflexivity].
  destruct (progressTasks ex (tasks q)) as [ts gained].
  destruct (forallb task_completed ts && negb (quest_completed q)); reflexivity.
Qed.

Lemma notifications_storage (news : list Achievement) (w : World) :
  storage (fold_left (fun w a => show (AchievementNotification (ach_id a)) w) news w)
  = storage w.
Proof.
  revert w. induction news as [| a news IH]; intros w; [reflexivity|].
  cbn [fold_left]. rewrite IH. reflexivity.
Qed.

Lemma awardExerciseCompletion_activities c enabled ex w :
  stored_activities (storage (fst (awardExerciseCompletion c enabled ex w)))
  = stored_activities (storage w).
Proof.
  unfold awardExerciseCompletion.
  set (w1 := set_userStats w _).
  assert (H1 : stored_activities (storage (fst (checkAndHandleLevelUp w1)))
               = stored_activities (storage w)).
  { unfold checkAndHandleLevelUp. case_match; reflexivity. }
  destruct (checkAndHandleLevelUp w1) as [w2 up]. cbn [fst] in H1.
  pose proof (checkAchievements_activities c ex w2) as H2.
  destruct (checkAchievements c ex w2) as [w3 news]. cbn [fst] in H2 |- *.
  rewrite notifications_storage.
  destruct up; cbn; rewrite updateDailyQuestProgress_activities; congruence.
Qed.






(** ** Reminder policy *)

Import ReminderService.

Lemma dndLoop_crossing (currentMinutes : Z) (hours : list string) :
  (forall range, range ∈ hours ->
     exists s e, rangeBounds range = Some (JS.Num s, JS.Num e) /\ e < s) ->
  dndLoop currentMinutes hours = Some false.
Proof.
  induction hours as [| range rest IH]; intros Hcross; [reflexivity|].
  cbn [dndLoop].
  destruct (Hcross range) as (s & e & -> & Hlt); [apply list_elem_of_here|].
  cbn [JS.geb JS.leb].
  destruct (Z.leb_spec s currentMinutes), (Z.leb_spec currentMinutes e);
    cbn [andb]; try lia.
  all: apply IH; intros r Hr; apply Hcross, list_elem_of_further, Hr.
Qed.

(** More generally a range written across midnight can be struck from the
    configuration without changing any answer. *)
Lemma dndLoop_skip_crossing (currentMinutes : Z) (before after : list string)
    (range : string) (s e : Z) :
  rangeBounds range = Some (JS.Num s, JS.Num e) -> e < s ->
  dndLoop currentMinutes (before ++ range :: after)
  = dndLoop currentMinutes (before ++ after).
Proof.
  intros Hrange Hlt. induction before as [| r before IH]; cbn [app dndLoop].
  - rewrite Hrange. cbn [JS.geb JS.leb].
    destruct (Z.leb_spec s currentMinutes), (Z.leb_spec currentMinutes e);
      cbn [andb]; try reflexivity; lia.
  - destruct (rangeBounds r) as [[lo hi]|]; [|reflexivity].
    destruct (JS.geb (JS.Num currentMinutes) lo && JS.leb (JS.Num currentMinutes) hi);
      [reflexivity | exact IH].
Qed.

(** C10: when every configured range starts later in the day than it ends
    (a window written across midnight, such as 22:00-06:00),
    [isDoNotDisturbTime] answers false at every instant: such a window never
    suppresses a reminder. *)
Theorem C10_midnight_crossing_window_never_matches (cfg : Config) (c : Clock)
    (Hcross : forall range, range ∈ dnd_hours cfg ->
       exists s e, rangeBounds range = Some (JS.Num s, JS.Num e) /\ e < s) :
  isDoNotDisturbTime cfg c = Some false.
Proof.
  unfold isDoNotDisturbTime. destruct (dnd_enabled cfg); cbn [negb]; [|reflexivity].
  apply dndLoop_crossing, Hcross.
Qed.

(** The window 22:00-06:00 at 23:30. *)
Lemma C10_midnight_crossing_window_never_matches_witness :
  isDoNotDisturbTime nightRange at2330 = Some false.
Proof.
  apply (C10_midnight_crossing_window_never_matches nightRange at2330).
  intros range Hin. apply list_elem_of_singleton in Hin. subst range.
  exists 1320, 360. split; [vm_compute; reflexivity | lia].
Defined.

(** The half of the suppression rule that holds: the periodic tick shows
    nothing while a suppression condition holds. *)
Lemma checkAndNotify_suppressed (cfg : Config) (e : Env) (s : t) :
  suppressed cfg e s = true -> shown (checkAndNotify cfg e s) = shown s.
Proof.
  unfold suppressed, checkAndNotify. intros Hsup.
  destruct (isPaused (clock e) s); [reflexivity|].
  destruct (isDoNotDisturbTime cfg (clock e)) as [[|]|]; try reflexivity.
  cbn [orb] in Hsup. rewrite bool_decide_eq_false_2 in Hsup by discriminate.
  cbn [orb] in Hsup. unfold shouldShowReminder, getReminderContext.
  cbn [isDebugging ctx_codeInputFrequency codeInputFrequency].
  destruct (debugging e); [reflexivity|]. cbn [orb] in Hsup. rewrite Hsup.
  reflexivity.
Qed.

(** C3 (the code departs from it): the prompt that follows a commit is
    displayed in every state, since [showPostCommitReminder] consults none of
    the suppression conditions.  With reminders paused and a debug session
    running, the periodic tick shows nothing, and the commit notification
    shows its prompt. *)
Theorem C3_commit_prompt_ignores_suppression :
  (forall e msg s,
     PostCommitNotification (detectCommitEmotion msg) ∈ shown (commitPath e msg s)) /\
  let s := pause (initial at1000) in
  let e := mkEnv at1000 true (1 # 4) 0 None in
  suppressed defaultConfig e s = true /\
  shown (checkAndNotify defaultConfig e s) = [] /\
  shown (commitPath e "fix login bug" s) = [PostCommitNotification Frustration].
Proof.
  split.
  - intros e msg s. unfold commitPath, showPostCommitReminder. cbn [response].
    destruct (response e) as [r|]; [destruct (String.eqb r "" || String.eqb r "Later")|];
      cbn; rewrite ?elem_of_app, ?list_elem_of_singleton; auto.
  - vm_compute. repeat split; reflexivity.
Qed.

Lemma smart_mode (cfg : Config) : frequency cfg = "smart" ->
  String.eqb (frequency cfg) "smart" = true.
Proof. intros ->. reflexivity. Qed.

(** C2 (as stated, refuted): ten minutes into the work, a commit exactly
    one minute old lies within the last [1,5) minutes, yet no reminder is due;
    and fifty minutes into the work with no break taken and a losing draw, a
    commit two minutes old does not make a reminder due either. *)
Lemma C2_commit_window_not_honoured :
  let boundary := smartContext 10 0 (Some (now at1000 - 60000)) in
  let lostDraw := smartContext 50 0 (Some (now at1000 - 120000)) in
  (isDebugging boundary = false /\ ctx_codeInputFrequency boundary <= 50 /\
   60000 <= now at1000 - (now at1000 - 60000) < 300000 /\
   shouldShowReminder defaultConfig (quietEnv (1 # 4)) boundary = false) /\
  (isDebugging lostDraw = false /\ ctx_codeInputFrequency lostDraw <= 50 /\
   60000 <= now at1000 - (now at1000 - 120000) < 300000 /\
   shouldShowReminder defaultConfig (quietEnv (1 # 4)) lostDraw = false).
Proof. vm_compute. repeat split; congruence. Qed.

(** C2 (amended): in smart mode, debugging off and input intensity at most
    50: from 90 minutes of work on a reminder is due (strong exactly from 120
    minutes on); between 45 and 59 minutes with fewer than 8 breaks today the
    answer is the draw [Math.random() > 0.5], at light severity, and commits
    are not consulted; below 45 minutes, or below 90 minutes with 8 breaks or
    more, a reminder is due exactly when the last commit is more than one and
    less than five minutes old.  In fixed mode a reminder is due exactly when
    the minutes of work reach the configured interval. *)
Theorem C2_reminder_decision (cfg : Config) (e : Env) (context : ReminderContext)
    (Hdebug : isDebugging context = false)
    (Hinput : ctx_codeInputFrequency context <= 50) :
  let worked := ctx_consecutiveWorkMinutes context in
  let breaks := ctx_todayBreakCount context in
  (frequency cfg = "smart" ->
     (90 <= worked ->
        shouldShowReminder cfg e context = true /\
        (severityOf context = Strong <-> 120 <= worked)) /\
     (45 <= worked < 60 -> breaks < 8 ->
        shouldShowReminder cfg e context = JS.Qltb (5 # 10) (random1 e) /\
        severityOf context = Light) /\
     (worked < 45 \/ (worked < 90 /\ 8 <= breaks) ->
        (shouldShowReminder cfg e context = true <->
         exists t, ctx_lastCommitTime context = Some t /\
                   60000 < now (clock e) - t < 300000))) /\
  (forall interval,
     frequency cfg <> "smart" ->
     JS.parseInt (JS.replace "min" "" (frequency cfg)) = JS.Num interval ->
     (shouldShowReminder cfg e context = true <-> interval <= worked)).
Proof.
  intros worked breaks.
  assert (Hfreq : (50 <? ctx_codeInputFrequency context) = false) by (apply Z.ltb_ge; lia).
  unfold shouldShowReminder, severityOf. rewrite Hdebug, Hfreq. fold worked breaks.
  split.
  - intros Hsmart. rewrite (smart_mode cfg Hsmart). split; [|split].
    + intros H90. split.
      * destruct (Z.leb_spec 120 worked); [reflexivity|].
        destruct (Z.leb_spec 90 worked); [reflexivity | lia].
      * destruct (Z.leb_spec 120 worked); [tauto|].
        destruct (Z.ltb_spec worked 60); split; (discriminate || lia).
    + intros Hband Hbreaks.
      destruct (Z.leb_spec 120 worked); [lia|].
      destruct (Z.leb_spec 90 worked); [lia|].
      destruct (Z.leb_spec 45 worked); [|lia].
      destruct (Z.ltb_spec breaks 8); [|lia].
      destruct (Z.ltb_spec worked 60); [|lia].
      split; reflexivity.
    + intros Hlow.
      destruct (Z.leb_spec 120 worked); [lia|].
      destruct (Z.leb_spec 90 worked); [lia|].
      assert (Hband : (45 <=? worked) && (breaks <? 8) = false).
      { destruct (Z.leb_spec 45 worked), (Z.ltb_spec breaks 8); cbn; try reflexivity; lia. }
      rewrite Hband.
      destruct (ctx_lastCommitTime context) as [t|].
      * destruct (Z.ltb_spec (now (clock e) - t) (5 * 60 * 1000)),
                 (Z.ltb_spec (1 * 60 * 1000) (now (clock e) - t)); cbn [andb];
          split; try discriminate; try (intros _; exists t; split; [reflexivity | lia]);
          intros (t' & [= <-] & Hwin); lia.
      * split; [discriminate | intros (t' & Habs & _); discriminate].
  - intros interval Hfixed Hparse.
    rewrite (proj2 (String.eqb_neq _ _) Hfixed), Hparse. cbn [JS.geb].
    apply Z.leb_le.
Qed.

(** Fifty minutes into the work with no break taken yet: the answer is the
    draw. *)
Lemma C2_reminder_decision_witness :
  shouldShowReminder defaultConfig (quietEnv (3 # 4)) (smartContext 50 0 None)
  = JS.Qltb (5 # 10) (random1 (quietEnv (3 # 4))) /\
  severityOf (smartContext 50 0 None) = Light.
Proof.
  apply (C2_reminder_decision defaultConfig (quietEnv (3 # 4)) (smartContext 50 0 None)).
  - reflexivity.
  - vm_compute. discriminate.
  - reflexivity.
  - vm_compute. split; [discriminate | reflexivity].
  - vm_compute. reflexivity.
Defined.

(** * Further properties *)

(** ** Health tracker: recording an activity *)

Lemma streakTransition_frame (today yesterday : bool) (s : UserStats) :
  let s' := streakTransition today yesterday s in
  healthScore s' = healthScore s /\ totalExercises s' = totalExercises s /\
  totalExerciseTime s' = totalExerciseTime s /\ totalPoints s' = totalPoints s /\
  availablePoints s' = availablePoints s /\ level s' = level s /\ xp s' = xp s.
Proof. unfold streakTransition. repeat case_match; repeat split. Qed.

Lemma calculateBasePoints_values (d : Z) :
  calculateBasePoints d = 5 \/ calculateBasePoints d = 15 \/ calculateBasePoints d = 30.
Proof. unfold calculateBasePoints. repeat case_match; auto. Qed.

(** X1: recording an activity counts one more exercise, adds its whole
    minutes and its points (5, 15 or 30 by duration) to the tracker's totals,
    leaves level and XP alone, stores a score in [0,100], and persists exactly
    the stats the tracker then holds. *)
Theorem recordActivity_totals (c : Clock) (id : string) (p : PartialActivity) (w : World) :
  let w' := recordActivity c id p w in
  let d := JS.or_number (p_duration p) 0 in
  totalExercises (currentStats w') = totalExercises (currentStats w) + 1 /\
  totalExerciseTime (currentStats w') = totalExerciseTime (currentStats w) + d / 60 /\
  totalPoints (currentStats w') = totalPoints (currentStats w) + calculateBasePoints d /\
  availablePoints (currentStats w')
    = availablePoints (currentStats w) + calculateBasePoints d /\
  (calculateBasePoints d = 5 \/ calculateBasePoints d = 15 \/ calculateBasePoints d = 30) /\
  level (currentStats w') = level (currentStats w) /\
  xp (currentStats w') = xp (currentStats w) /\
  0 <= healthScore (currentStats w') <= 100 /\
  stored_userStats (storage w') = Some (currentStats w').
Proof.
  intros w' d. subst w'. unfold recordActivity, updateHealthScore, updateStats, updateStreak.
  cbn [saveStats currentStats set_currentStats set_storage storage stored_userStats
       with_healthScore totalExercises totalExerciseTime totalPoints availablePoints
       level xp healthScore].
  match goal with
  | |- context [streakTransition ?a ?b ?s] =>
      destruct (streakTransition_frame a b s) as (_ & H1 & H2 & H3 & H4 & H5 & H6)
  end.
  rewrite H1, H2, H3, H4, H5, H6. cbn.
  repeat split; try reflexivity; try apply calculateBasePoints_values.
  all: unfold calculateHealthScore; lia.
Qed.

Lemma pushCapped_keeps_new (log : list Activity) (a : Activity) :
  exists kept, pushCapped log a = kept ++ [a].
Proof.
  unfold pushCapped. destruct (Nat.ltb_spec 1000 (length (log ++ [a]))) as [Hlt | _].
  - rewrite length_app in *. cbn [length] in *.
    exists (drop (length log + 1 - 1000) log). apply drop_app_le. lia.
  - exists log. reflexivity.
Qed.

(** The activity just saved is of the current day, so the update that
    follows always finds an activity today. *)
Lemma hasActivityToday_after_save c id p w s :
  hasActivityToday c (set_currentStats (saveActivity (fullActivity c id p) w) s) = true.
Proof.
  unfold hasActivityToday, saveActivity, getActivities.
  cbn [set_currentStats set_storage storage stored_activities].
  destruct (pushCapped_keeps_new (stored_activities (storage w)) (fullActivity c id p))
    as (kept & ->).
  rewrite existsb_app. cbn. unfold isToday. cbn [createdAt fullActivity].
  rewrite Z.eqb_refl. apply orb_true_r.
Qed.

Lemma streakTransition_today (yesterday : bool) (s : UserStats) :
  let s' := streakTransition true yesterday s in
  (streak s' = streak s \/ streak s' = streak s + 1) /\
  (streak s = 0 -> streak s' = 1) /\
  longestStreak s' = Z.max (longestStreak s) (streak s').
Proof.
  unfold streakTransition.
  destruct yesterday; cbn [orb];
    [| destruct (Z.eqb_spec (streak s) 0) as [E | E] ];
    cbn [with_streak streak longestStreak];
    repeat match goal with
           | |- context [?a <? ?b] => destruct (Z.ltb_spec a b)
           end;
    unfold with_longestStreak, with_streak; cbn [streak longestStreak];
    repeat split; intros; lia.
Qed.

(** X2: recording an activity never resets or lowers the streak, however
    long ago the previous activity was: the streak stays or grows by one, it
    grows when it was 0, and the longest streak becomes the larger of its old
    value and the new streak. *)
Theorem recordActivity_streak_never_resets (c : Clock) (id : string)
    (p : PartialActivity) (w : World) :
  let s := currentStats w in
  let s' := currentStats (recordActivity c id p w) in
  (streak s' = streak s \/ streak s' = streak s + 1) /\
  (streak s = 0 -> streak s' = 1) /\
  longestStreak s' = Z.max (longestStreak s) (streak s').
Proof.
  intros s s'. subst s s'. unfold recordActivity, updateHealthScore, updateStats, updateStreak.
  cbn [saveStats currentStats set_currentStats set_storage with_healthScore streak
       longestStreak].
  rewrite hasActivityToday_after_save.
  match goal with
  | |- context [streakTransition true ?y ?st] =>
      pose proof (streakTransition_today y st) as Hstep
  end.
  exact Hstep.
Qed.

(** A user whose streak is 0 and whose only stored activity is two weeks old. *)
Lemma recordActivity_streak_never_resets_witness :
  streak (currentStats
            (recordActivity (utc (minutes 20000)) "activity_9" (partialEye 19990 19991)
               (set_currentStats (with_log emptyWorld [yesterdayActivity])
                  (mkUserStats 100 0 3 4 4 20 20 1 0)))) = 1.
Proof.
  apply (proj1 (proj2 (recordActivity_streak_never_resets (utc (minutes 20000))
           "activity_9" (partialEye 19990 19991)
           (set_currentStats (with_log emptyWorld [yesterdayActivity])
              (mkUserStats 100 0 3 4 4 20 20 1 0))))).
  reflexivity.
Defined.

(** The break penalty as a function of the number of activities of the
    day, against the eight recommended breaks. *)
Lemma breakPenalty_by_count c w acts :
  let n := Z.of_nat (length acts) in
  breakPenalty (calculateDailyMetrics c w acts)
  = if n <? 4 then 40 else if n <? 6 then 20 else if n <? 8 then 10 else 0.
Proof.
  intros n. unfold breakPenalty, breakRatio, calculateDailyMetrics.
  cbn [breaksTaken breaksRecommended]. fold n.
  change (0 <? 480 / 60) with true. cbn iota.
  unfold JS.Qltb, Qle_bool, Qdiv, Qmult, Qinv, inject_Z.
  change (480 / 60) with 8. cbn [Qnum Qden].
  repeat match goal with
         | |- context [?a <=? ?b] => destruct (Z.leb_spec a b)
         | |- context [?a <? ?b] => destruct (Z.ltb_spec a b)
         end; cbn [negb]; try reflexivity; lia.
Qed.

(** X3: the score is 100 exactly when the day has at least eight
    activities, no sitting gap above 60 minutes, at least 20 exercise
    minutes and at least three distinct exercises; with fewer than four
    activities it cannot exceed 60. *)
Theorem perfect_score_conditions (c : Clock) (w : World) :
  let today := getActivitiesForDate c w in
  let dm := calculateDailyMetrics c w today in
  (calculateHealthScore c w = 100 <->
   (8 <= length today)%nat /\ longestSittingStreak dm <= 60 /\
   20 <= exerciseDuration dm /\ 3 <= uniqueExercises today) /\
  ((length today < 4)%nat -> calculateHealthScore c w <= 60).
Proof.
  intros today dm. rewrite calculateHealthScore_sum. fold today. fold dm.
  pose proof (breakPenalty_by_count c w today) as Hb. cbv zeta in Hb. fold dm in Hb.
  pose proof (sittingPenalty_range dm). pose proof (durationPenalty_range dm).
  pose proof (varietyPenalty_range today).
  rewrite Hb. unfold sittingPenalty, durationPenalty, varietyPenalty in *.
  repeat match goal with
         | |- context [?a <? ?b] => destruct (Z.ltb_spec a b)
         end; split; try split; intros; try lia.
Qed.

(** A day with a single activity. *)
Lemma perfect_score_conditions_witness :
  calculateHealthScore at1000 (with_log emptyWorld [newActivity]) <= 60.
Proof.
  apply (proj2 (perfect_score_conditions at1000 (with_log emptyWorld [newActivity]))).
  vm_compute. lia.
Defined.

Lemma sitStep_longest_nonneg (acts : list Activity) : forall s,
  (0 <= sl_longest s)%Q -> (0 <= sl_longest (fold_left sitStep acts s))%Q.
Proof.
  induction acts as [| a acts IH]; intros s Hs; [exact Hs|].
  cbn [fold_left]. apply IH. unfold sitStep. cbn [sl_longest].
  eapply Qle_trans; [exact Hs | apply Q.le_max_l].
Qed.

(** The longest sitting gap is never negative, also when the clock or
    the timestamps of the activities are out of order. *)
Lemma calculateLongestSittingStreak_nonneg (c : Clock) (acts : list Activity) :
  0 <= calculateLongestSittingStreak c acts.
Proof.
  unfold calculateLongestSittingStreak. destruct (length acts =? 0)%nat; [lia|].
  cbv zeta. unfold JS.Math_round.
  set (s := fold_left sitStep _ _).
  assert (Hs : (0 <= sl_longest s)%Q) by (apply sitStep_longest_nonneg; cbn; apply Qle_refl).
  change 0 with (Qfloor 0). apply Qfloor_resp_le.
  apply (Qle_trans _ (0 + 0)%Q); [apply Qle_refl|].
  apply Qplus_le_compat; [|discriminate].
  eapply Qle_trans; [exact Hs | apply Q.le_max_l].
Qed.

(** ** Gamification: XP, achievements, levels, quest *)

Lemma add_xp_0 (s : UserStats) : add_xp s 0 = s.
Proof. destruct s. unfold add_xp. cbn. f_equal. lia. Qed.

Lemma add_xp_add_xp (s : UserStats) (a b : Z) : add_xp (add_xp s a) b = add_xp s (a + b).
Proof. unfold add_xp. cbn. f_equal. lia. Qed.

(** The loop of [checkAchievements], from any intermediate state: what it
    appends to the list of new achievements determines everything it does. *)
Lemma checkAchievements_loop c ex (L : list Achievement) : forall w0 n0,
  let r := fold_left (checkOne c ex) L (w0, n0) in
  exists added,
    snd r = n0 ++ added /\
    unlockedAchievements (fst r)
      = unlockedAchievements w0 ∪ list_to_set (ach_id <$> added) /\
    userStats (fst r) = add_xp (userStats w0) (sumZ (reward_xp <$> added)) /\
    Forall (fun a => a ∈ L /\ ach_id a ∉ unlockedAchievements w0) added /\
    storage (fst r) = storage w0 /\ dailyQuest (fst r) = dailyQuest w0 /\
    currentStats (fst r) = currentStats w0 /\ ui (fst r) = ui w0.
Proof.
  induction L as [| a L IH]; intros w0 n0; cbn [fold_left].
  - exists []. cbn. rewrite app_nil_r, add_xp_0.
    split; [reflexivity|]. split; [set_solver|]. split; [reflexivity|].
    split; [constructor|]. repeat split.
  - assert (Hcases :
        checkOne c ex (w0, n0) a = (w0, n0) \/
        ((ach_id a ∉ unlockedAchievements w0) /\
         checkOne c ex (w0, n0) a
         = (set_userStats (set_unlocked w0 ({[ ach_id a ]} ∪ unlockedAchievements w0))
              (add_xp (userStats w0) (reward_xp a)), n0 ++ [a]))).
    { unfold checkOne. destruct (decide (ach_id a ∈ unlockedAchievements w0)); [left; reflexivity|].
      destruct (checkAchievementRequirement c w0 a ex);
        [right; split; [assumption | reflexivity] | left; reflexivity]. }
    destruct Hcases as [-> | [Hnew ->]].
    + destruct (IH w0 n0) as (added & Hs & Hu & Hx & Hall & Hrest).
      exists added. split; [exact Hs|]. split; [exact Hu|]. split; [exact Hx|].
      split; [|exact Hrest].
      eapply Forall_impl; [exact Hall|]. cbn. intros b [Hb Hnb]. split; [|exact Hnb].
      apply list_elem_of_further, Hb.
    + match goal with
      | |- context [fold_left _ L (?w1, ?n1)] =>
          destruct (IH w1 n1) as (added & Hs & Hu & Hx & Hall & Hst & Hq & Hc & Hui)
      end.
      exists (a :: added). cbn [set_userStats set_unlocked unlockedAchievements userStats
                                  storage dailyQuest currentStats ui] in *.
      split; [|split; [|split; [|split; [|repeat split; assumption]]]].
      * rewrite Hs, <- app_assoc. reflexivity.
      * rewrite Hu. cbn [fmap list_fmap list_to_set]. set_solver.
      * rewrite Hx, add_xp_add_xp. reflexivity.
      * constructor; [split; [apply list_elem_of_here | exact Hnew]|].
        eapply Forall_impl; [exact Hall|]. cbn. intros b [Hb Hnb].
        split; [apply list_elem_of_further, Hb | set_solver].
Qed.

Lemma checkAchievements_effect c ex w :
  let r := checkAchievements c ex w in
  unlockedAchievements (fst r)
    = unlockedAchievements w ∪ list_to_set (ach_id <$> snd r) /\
  userStats (fst r) = add_xp (userStats w) (sumZ (reward_xp <$> snd r)) /\
  Forall (fun a => a ∈ ACHIEVEMENTS /\ ach_id a ∉ unlockedAchievements w) (snd r) /\
  storage (fst r) = storage w /\ dailyQuest (fst r) = dailyQuest w /\
  currentStats (fst r) = currentStats w /\ ui (fst r) = ui w.
Proof.
  unfold checkAchievements.
  destruct (checkAchievements_loop c ex ACHIEVEMENTS w []) as (added & Hs & H).
  cbn zeta in *. rewrite Hs. cbn [app]. exact H.
Qed.





(** [awardExerciseCompletion] as the sequence of its steps. *)
Lemma awardExerciseCompletion_steps c enabled ex w :
  let total := calculateExerciseXP ex + calculateBonusXP c w in
  let points := calculateExercisePoints enabled w ex in
  let w1 := set_userStats w (add_points (add_xp (userStats w) total) points) in
  let w2 := fst (checkAndHandleLevelUp w1) in
  let up := snd (checkAndHandleLevelUp w1) in
  let w3 := fst (checkAchievements c ex w2) in
  let news := snd (checkAchievements c ex w2) in
  let w4 := saveUnlockedAchievements (saveUserStats (updateDailyQuestProgress ex w3)) in
  let w5 := if up
            then show (LevelUpNotification (level (userStats w)) (level (userStats w4))) w4
            else w4 in
  awardExerciseCompletion c enabled ex w
  = (fold_left (fun w a => show (AchievementNotification (ach_id a)) w) news w5,
     mkAward total points up (if up then Some (level (userStats w2)) else None) news).
Proof.
  cbv zeta. unfold awardExerciseCompletion.
  destruct (checkAndHandleLevelUp _) as [w2 up]. cbn [fst snd].
  destruct (checkAchievements c ex w2) as [w3 news]. cbn [fst snd].
  destruct up; reflexivity.
Qed.

(** Showing notifications changes the trace only. *)
Lemma notifications_frame (news : list Achievement) (w : World) :
  let w' := fold_left (fun w a => show (AchievementNotification (ach_id a)) w) news w in
  storage w' = storage w /\ userStats w' = userStats w /\
  unlockedAchievements w' = unlockedAchievements w /\ dailyQuest w' = dailyQuest w /\
  currentStats w' = currentStats w.
Proof.
  revert w. induction news as [| a news IH]; intros w; [repeat split|].
  cbn [fold_left]. destruct (IH (show (AchievementNotification (ach_id a)) w))
    as (-> & -> & -> & -> & ->). repeat split.
Qed.

Lemma checkAndHandleLevelUp_effect w :
  let r := checkAndHandleLevelUp w in
  snd r = (level (userStats w) <? findCurrentLevel (xp (userStats w))) /\
  userStats (fst r)
  = (if snd r then with_level (userStats w) (findCurrentLevel (xp (userStats w)))
     else userStats w) /\
  unlockedAchievements (fst r) = unlockedAchievements w /\
  dailyQuest (fst r) = dailyQuest w /\ storage (fst r) = storage w /\
  currentStats (fst r) = currentStats w.
Proof. unfold checkAndHandleLevelUp. case_match; repeat split. Qed.

(** The task loop of the quest update, task by task. *)
Lemma progressTasks_map ex (ts : list QuestTask) :
  progressTasks ex ts
  = ((fun t => fst (progressTask ex t)) <$> ts,
     sumZ ((fun t => snd (progressTask ex t)) <$> ts)).
Proof.
  unfold progressTasks.
  assert (Hgen : forall seen g,
    fold_left (fun acc task =>
                 let '(seen, gained) := acc in
                 let '(task, x) := progressTask ex task in
                 (seen ++ [task], gained + x)) ts (seen, g)
    = (seen ++ ((fun t => fst (progressTask ex t)) <$> ts),
       g + sumZ ((fun t => snd (progressTask ex t)) <$> ts))).
  { induction ts as [| t ts IH]; intros seen g; cbn [fold_left fmap list_fmap sumZ foldr].
    - rewrite app_nil_r. f_equal. lia.
    - destruct (progressTask ex t) as [t' x]. cbn [fst snd]. rewrite IH.
      rewrite <- app_assoc. cbn [app]. f_equal. unfold sumZ. lia. }
  rewrite Hgen. cbn [app]. f_equal.
Qed.

Lemma updateDailyQuestProgress_effect ex w :
  let w' := updateDailyQuestProgress ex w in
  userStats w'
  = add_xp (userStats w) (match dailyQuest w with Some q => questGain ex q | None => 0 end) /\
  dailyQuest w'
  = (fun q => mkQuest (quest_date q) ((fun t => fst (progressTask ex t)) <$> tasks q)
                (totalXP q)
                (if forallb task_completed ((fun t => fst (progressTask ex t)) <$> tasks q)
                    && negb (quest_completed q)
                 then true else quest_completed q)) <$> dailyQuest w /\
  unlockedAchievements w' = unlockedAchievements w /\
  currentStats w' = currentStats w /\
  stored_activities (storage w') = stored_activities (storage w).
Proof.
  unfold updateDailyQuestProgress, questGain.
  destruct (dailyQuest w) as [q|] eqn:Hq; cbn [fmap option_fmap option_map].
  - rewrite progressTasks_map.
    destruct (forallb task_completed _ && negb (quest_completed q));
      cbn; rewrite ?add_xp_add_xp, ?Z.add_0_r; repeat split.
  - rewrite add_xp_0, Hq. repeat split.
Qed.

(** Where the XP of one award comes from. *)
Lemma award_xp_accounting c enabled ex w :
  let r := awardExerciseCompletion c enabled ex w in
  xp (userStats (fst r))
  = xp (userStats w) + xpEarned (snd r) + sumZ (reward_xp <$> newAchievements (snd r))
    + match dailyQuest w with Some q => questGain ex q | None => 0 end.
Proof.
  cbv zeta. rewrite awardExerciseCompletion_steps. cbn [fst snd xpEarned newAchievements].
  match goal with |- context [fold_left ?f ?news ?w5] =>
    destruct (notifications_frame news w5) as (_ & -> & _) end.
  set (w1 := set_userStats w _).
  destruct (checkAndHandleLevelUp_effect w1) as (_ & Hs2 & _ & Hq2 & _).
  set (w2 := fst (checkAndHandleLevelUp w1)) in *.
  destruct (checkAchievements_effect c ex w2) as (_ & Hs3 & _ & _ & Hq3 & _).
  set (w3 := fst (checkAchievements c ex w2)) in *.
  set (news := snd (checkAchievements c ex w2)) in *.
  destruct (updateDailyQuestProgress_effect ex w3) as (Hs4 & _).
  set (w4 := updateDailyQuestProgress ex w3) in *.
  assert (H1 : xp (userStats w1)
               = xp (userStats w) + (calculateExerciseXP ex + calculateBonusXP c w))
    by reflexivity.
  assert (H2 : xp (userStats w2) = xp (userStats w1)).
  { rewrite Hs2. destruct (snd (checkAndHandleLevelUp w1)); reflexivity. }
  assert (H3 : xp (userStats w3) = xp (userStats w2) + sumZ (reward_xp <$> news)).
  { rewrite Hs3. reflexivity. }
  assert (H4 : xp (userStats w4)
               = xp (userStats w3)
                 + match dailyQuest w with Some q => questGain ex q | None => 0 end).
  { rewrite Hs4, Hq3, Hq2. reflexivity. }
  destruct (snd (checkAndHandleLevelUp w1));
    cbn [show saveUnlockedAchievements saveUserStats set_storage userStats]; lia.
Qed.


Lemma reward_positive (a : Achievement) : a ∈ ACHIEVEMENTS -> 0 < reward_xp a.
Proof.
  unfold ACHIEVEMENTS. intros Ha.
  repeat (apply elem_of_cons in Ha as [-> | Ha]; [cbn; lia|]).
  inversion Ha.
Qed.

Lemma sumZ_nonneg (l : list Z) : Forall (fun x => 0 <= x) l -> 0 <= sumZ l.
Proof. induction 1; cbn [sumZ foldr]; [lia | unfold sumZ in *; lia]. Qed.

(** One iteration of the task loop: what it may change in a task, and the
    XP it grants. *)
Lemma progressTask_props ex (t : QuestTask) :
  let t' := fst (progressTask ex t) in
  let x := snd (progressTask ex t) in
  task_id t' = task_id t /\ target t' = target t /\ task_xp t' = task_xp t /\
  current t <= current t' <= current t + 1 /\
  (task_completed t = true -> t' = t) /\
  (task_completed t' = true -> task_completed t = true \/ target t <= current t') /\
  x = (if negb (task_completed t) && task_completed t' then task_xp t else 0).
Proof.
  unfold progressTask. destruct (task_completed t) eqn:Hdone.
  - cbn. rewrite Hdone. repeat split; auto; lia.
  - repeat case_match; cbn in *;
      repeat match goal with
             | H : (_ <=? _) = true |- _ => apply Z.leb_le in H
             | H : (_ <=? _) = false |- _ => apply Z.leb_gt in H
             end;
      rewrite ?Hdone; repeat split; intros; try discriminate; auto; try lia; try congruence.
Qed.

Lemma questGain_nonneg ex q :
  Forall (fun t => 0 <= task_xp t) (tasks q) -> 0 <= questGain ex q.
Proof.
  intros Hall. unfold questGain.
  assert (0 <= sumZ ((fun t => snd (progressTask ex t)) <$> tasks q)).
  { apply sumZ_nonneg. apply Forall_fmap. eapply Forall_impl; [exact Hall|].
    cbn. intros t Ht.
    destruct (progressTask_props ex t) as (_ & _ & _ & _ & _ & _ & ->).
    case_match; lia. }
  destruct (forallb task_completed _ && negb (quest_completed q)); lia.
Qed.

(** X6: as long as no task of the quest carries a negative XP value, every
    award raises the XP by at least the XP reported for the exercise, which is
    at least 5: XP never goes down. *)
Theorem awardExerciseCompletion_xp_grows (c : Clock) (enabled : bool)
    (ex : Exercise) (w : World)
    (Htasks : forall q, dailyQuest w = Some q ->
                Forall (fun t => 0 <= task_xp t) (tasks q)) :
  let r := awardExerciseCompletion c enabled ex w in
  5 <= xpEarned (snd r) /\
  xp (userStats w) + xpEarned (snd r) <= xp (userStats (fst r)).
Proof.
  intros r. pose proof (award_xp_accounting c enabled ex w) as Hacc. cbv zeta in Hacc.
  fold r in Hacc. rewrite Hacc.
  assert (Hearned : 5 <= xpEarned (snd r)).
  { subst r. rewrite awardExerciseCompletion_steps. cbn [snd xpEarned].
    pose proof (calculateBonusXP_nonneg c w).
    unfold calculateExerciseXP, baseTable. destruct (category ex); lia. }
  assert (Hnews : 0 <= sumZ (reward_xp <$> newAchievements (snd r))).
  { subst r. rewrite awardExerciseCompletion_steps. cbn [snd newAchievements].
    match goal with |- context [checkAchievements c ex ?w2] =>
      destruct (checkAchievements_effect c ex w2) as (_ & _ & Hall & _) end.
    apply sumZ_nonneg, Forall_fmap. eapply Forall_impl; [exact Hall|].
    cbn. intros a [Ha _]. pose proof (reward_positive a Ha). lia. }
  assert (Hquest : 0 <= match dailyQuest w with Some q => questGain ex q | None => 0 end).
  { destruct (dailyQuest w) as [q|] eqn:Hq; [|lia].
    apply questGain_nonneg, Htasks. reflexivity. }
  lia.
Qed.

(** The seven-day streak user of the level example: 7 XP for the exercise,
    107 XP afterwards. *)
Lemma awardExerciseCompletion_xp_grows_witness :
  5 <= xpEarned (snd (awardExerciseCompletion at1000 true eye_exercise weekStreak)) /\
  xp (userStats weekStreak)
  + xpEarned (snd (awardExerciseCompletion at1000 true eye_exercise weekStreak))
  <= xp (userStats (fst (awardExerciseCompletion at1000 true eye_exercise weekStreak))).
Proof.
  apply (awardExerciseCompletion_xp_grows at1000 true eye_exercise weekStreak).
  intros q Hq. injection Hq as <-. vm_compute.
  repeat (constructor; [discriminate|]). constructor.
Defined.

Lemma award_unlocked c enabled ex w :
  let r := awardExerciseCompletion c enabled ex w in
  unlockedAchievements (fst r)
    = unlockedAchievements w ∪ list_to_set (ach_id <$> newAchievements (snd r)) /\
  Forall (fun a => a ∈ ACHIEVEMENTS /\ ach_id a ∉ unlockedAchievements w)
    (newAchievements (snd r)).
Proof.
  cbv zeta. rewrite awardExerciseCompletion_steps. cbn [fst snd newAchievements].
  match goal with |- context [fold_left ?f ?news ?w5] =>
    destruct (notifications_frame news w5) as (_ & _ & -> & _) end.
  set (w1 := set_userStats w _).
  destruct (checkAndHandleLevelUp_effect w1) as (_ & _ & Hu2 & _).
  set (w2 := fst (checkAndHandleLevelUp w1)) in *.
  destruct (checkAchievements_effect c ex w2) as (Hu3 & _ & Hall & _).
  set (w3 := fst (checkAchievements c ex w2)) in *.
  destruct (updateDailyQuestProgress_effect ex w3) as (_ & _ & Hu4 & _).
  assert (Hfin : forall w4,
    unlockedAchievements
      (if snd (checkAndHandleLevelUp w1)
       then show (LevelUpNotification (level (userStats w)) (level (userStats w4))) w4
       else w4) = unlockedAchievements w4).
  { intros w4. destruct (snd (checkAndHandleLevelUp w1)); reflexivity. }
  rewrite Hfin. cbn [saveUnlockedAchievements saveUserStats set_storage unlockedAchievements].
  rewrite Hu4, Hu3, Hu2. split; [reflexivity|]. rewrite Hu2 in Hall. exact Hall.
Qed.

(** X7: achievements are one-way: after an award the unlocked set is the
    old set plus exactly the achievements the call reports, each of which is
    an entry of the catalog that was not unlocked before. *)
Theorem awardExerciseCompletion_unlocks (c : Clock) (enabled : bool)
    (ex : Exercise) (w : World) :
  let r := awardExerciseCompletion c enabled ex w in
  unlockedAchievements w ⊆ unlockedAchievements (fst r) /\
  unlockedAchievements (fst r)
    = unlockedAchievements w ∪ list_to_set (ach_id <$> newAchievements (snd r)) /\
  Forall (fun a => a ∈ ACHIEVEMENTS /\ ach_id a ∉ unlockedAchievements w)
    (newAchievements (snd r)).
Proof.
  intros r. destruct (award_unlocked c enabled ex w) as [Hu Hall]. fold r in Hu, Hall.
  split; [|split; assumption]. rewrite Hu. apply union_subseteq_l.
Qed.

Lemma award_level_flag c enabled ex w :
  let r := awardExerciseCompletion c enabled ex w in
  let target := findCurrentLevel (xp (userStats w) + xpEarned (snd r)) in
  leveledUp (snd r) = (level (userStats w) <? target) /\
  level (userStats (fst r)) = (if leveledUp (snd r) then target else level (userStats w)) /\
  newLevel (snd r) = (if leveledUp (snd r) then Some target else None).
Proof.
  cbv zeta. pose proof (awardExerciseCompletion_level c enabled ex w) as Hlevel.
  revert Hlevel. rewrite awardExerciseCompletion_steps.
  cbn [fst snd leveledUp newLevel xpEarned]. intros Hlevel.
  set (w1 := set_userStats w _) in *.
  destruct (checkAndHandleLevelUp_effect w1) as (Hup & Hs2 & _).
  change (xp (userStats w1))
    with (xp (userStats w) + (calculateExerciseXP ex + calculateBonusXP c w)) in *.
  change (level (userStats w1)) with (level (userStats w)) in *.
  rewrite Hs2, Hlevel, Hup.
  destruct (Z.ltb_spec (level (userStats w))
              (findCurrentLevel
                 (xp (userStats w) + (calculateExerciseXP ex + calculateBonusXP c w))));
    cbn [with_level level]; repeat split; lia.
Qed.

(** X8: an award flags a level-up exactly when the stored level rises; the
    level never goes down, and the level it reports is the one it stores: the
    lookup on the XP right after the exercise XP is added. *)
Theorem awardExerciseCompletion_level_up_flag (c : Clock) (enabled : bool)
    (ex : Exercise) (w : World) :
  let r := awardExerciseCompletion c enabled ex w in
  (leveledUp (snd r) = true <-> level (userStats w) < level (userStats (fst r))) /\
  level (userStats w) <= level (userStats (fst r)) /\
  newLevel (snd r)
  = (if leveledUp (snd r) then Some (level (userStats (fst r))) else None).
Proof.
  intros r. destruct (award_level_flag c enabled ex w) as (Hup & Hl & Hn).
  fold r in Hup, Hl, Hn. rewrite Hl, Hn, Hup.
  destruct (Z.ltb_spec (level (userStats w))
              (findCurrentLevel (xp (userStats w) + xpEarned (snd r))));
    repeat split; intros; try lia; try discriminate.
Qed.

(** X9: the quest update keeps the tasks in place with their identifier,
    target and XP value; the progress of a task never goes down and rises by
    at most one; a completed task is left as it is, and a task only becomes
    completed once its progress has reached its target. *)
Theorem updateDailyQuestProgress_tasks (ex : Exercise) (w : World) (q : DailyQuest)
    (Hquest : dailyQuest w = Some q) :
  exists q',
    dailyQuest (updateDailyQuestProgress ex w) = Some q' /\
    quest_date q' = quest_date q /\
    Forall2 (fun t t' =>
               task_id t' = task_id t /\ target t' = target t /\ task_xp t' = task_xp t /\
               current t <= current t' <= current t + 1 /\
               (task_completed t = true -> t' = t) /\
               (task_completed t' = true ->
                task_completed t = true \/ target t <= current t'))
            (tasks q) (tasks q').
Proof.
  destruct (updateDailyQuestProgress_effect ex w) as (_ & Hq' & _).
  rewrite Hquest in Hq'. cbn in Hq'. eexists. split; [exact Hq'|].
  split; [reflexivity|]. cbn [tasks]. apply Forall2_fmap_r, Forall_Forall2_diag.
  apply Forall_forall. intros t _.
  destruct (progressTask_props ex t) as (H1 & H2 & H3 & H4 & H5 & H6 & _).
  repeat split; assumption || apply H4.
Qed.

(** The quest of a first-time user after one eye exercise. *)
Lemma updateDailyQuestProgress_tasks_witness :
  exists q',
    dailyQuest (updateDailyQuestProgress eye_exercise newcomer) = Some q' /\
    quest_date q' = quest_date (generateDailyQuest at1000) /\
    Forall2 (fun t t' =>
               task_id t' = task_id t /\ target t' = target t /\ task_xp t' = task_xp t /\
               current t <= current t' <= current t + 1 /\
               (task_completed t = true -> t' = t) /\
               (task_completed t' = true ->
                task_completed t = true \/ target t <= current t'))
            (tasks (generateDailyQuest at1000)) (tasks q').
Proof.
  apply (updateDailyQuestProgress_tasks eye_exercise newcomer (generateDailyQuest at1000)).
  reflexivity.
Defined.

Lemma progressTask_completed ex (t : QuestTask) :
  task_completed t = true -> progressTask ex t = (t, 0).
Proof. intros H. unfold progressTask. rewrite H. reflexivity. Qed.

Lemma progressTasks_all_completed ex (ts : list QuestTask) :
  forallb task_completed ts = true ->
  (fun t => fst (progressTask ex t)) <$> ts = ts /\
  sumZ ((fun t => snd (progressTask ex t)) <$> ts) = 0.
Proof.
  induction ts as [| t ts IH]; cbn [forallb fmap list_fmap sumZ foldr]; [split; reflexivity|].
  intros [Ht Hts]%andb_true_iff. destruct (IH Hts) as [IH1 IH2].
  rewrite (progressTask_completed ex t Ht). cbn [fst snd]. unfold sumZ in *.
  change (list_fmap QuestTask QuestTask (fun t => (progressTask ex t).1) ts)
    with ((fun t => fst (progressTask ex t)) <$> ts).
  change (list_fmap QuestTask Z (fun t => (progressTask ex t).2) ts)
    with ((fun t => snd (progressTask ex t)) <$> ts).
  rewrite IH1, IH2. split; reflexivity.
Qed.

(** X10: the completion bonus is granted once.  When a quest update leaves
    every task completed, the quest is flagged completed, and every later
    update, for whatever exercise, changes neither the XP nor the quest. *)
Theorem quest_bonus_granted_once (ex ex' : Exercise) (w : World) (q1 : DailyQuest)
    (Hafter : dailyQuest (updateDailyQuestProgress ex w) = Some q1)
    (Hall : forallb task_completed (tasks q1) = true) :
  let w1 := updateDailyQuestProgress ex w in
  quest_completed q1 = true /\
  userStats (updateDailyQuestProgress ex' w1) = userStats w1 /\
  dailyQuest (updateDailyQuestProgress ex' w1) = dailyQuest w1.
Proof.
  intros w1.
  assert (Hflag : quest_completed q1 = true).
  { destruct (updateDailyQuestProgress_effect ex w) as (_ & Hq' & _).
    rewrite Hafter in Hq'. destruct (dailyQuest w) as [q|]; [|discriminate].
    cbn in Hq'. injection Hq' as ->. cbn [tasks quest_completed] in *.
    rewrite Hall. cbn [andb]. destruct (quest_completed q); reflexivity. }
  split; [exact Hflag|].
  destruct (updateDailyQuestProgress_effect ex' w1) as (Hs & Hq & _).
  fold w1 in Hafter. rewrite Hafter in Hs, Hq.
  unfold questGain in Hs. cbn [fmap option_fmap option_map] in Hq.
  destruct (progressTasks_all_completed ex' (tasks q1) Hall) as [Hts Hsum].
  rewrite Hts, Hsum, Hflag, Hall in Hs. rewrite Hts, Hflag, Hall in Hq.
  cbn in Hs. rewrite add_xp_0 in Hs. split; [exact Hs|].
  rewrite Hq, Hafter. destruct q1. cbn in *. subst. reflexivity.
Qed.

(** A quest of one task, completed by the first exercise: 90 XP then, and
    nothing for the second exercise. *)
Lemma quest_bonus_granted_once_witness :
  quest_completed (mkQuest (minutes 2040)
                     [mkTask "task_breaks" "Complete 1 micro-break" 1 1 40 true] 40 true)
  = true /\
  userStats (updateDailyQuestProgress eye_exercise
               (updateDailyQuestProgress eye_exercise oneTaskWorld))
  = userStats (updateDailyQuestProgress eye_exercise oneTaskWorld) /\
  dailyQuest (updateDailyQuestProgress eye_exercise
                (updateDailyQuestProgress eye_exercise oneTaskWorld))
  = dailyQuest (updateDailyQuestProgress eye_exercise oneTaskWorld).
Proof.
  apply (quest_bonus_granted_once eye_exercise eye_exercise oneTaskWorld).
  - reflexivity.
  - reflexivity.
Defined.

Lemma updateDailyQuestProgress_saved ex w :
  is_Some (dailyQuest w) ->
  let w' := updateDailyQuestProgress ex w in
  stored_dailyQuest (storage w') = dailyQuest w' /\
  stored_userStats (storage w') = Some (userStats w').
Proof.
  intros [q Hq]. unfold updateDailyQuestProgress. rewrite Hq.
  destruct (progressTasks ex (tasks q)) as [ts gained].
  destruct (forallb task_completed ts && negb (quest_completed q)); split; reflexivity.
Qed.

(** X11: when an award returns, storage holds the stats and the unlocked
    set the service has in memory, and the quest if there is one; the
    activity log is not touched. *)
Theorem awardExerciseCompletion_persists (c : Clock) (enabled : bool)
    (ex : Exercise) (w : World) :
  let w' := fst (awardExerciseCompletion c enabled ex w) in
  stored_userStats (storage w') = Some (userStats w') /\
  stored_unlockedAchievements (storage w') = elements (unlockedAchievements w') /\
  (is_Some (dailyQuest w) -> stored_dailyQuest (storage w') = dailyQuest w') /\
  stored_activities (storage w') = stored_activities (storage w).
Proof.
  cbv zeta. split; [|split; [|split]]; [| | |apply awardExerciseCompletion_activities].
  all: rewrite awardExerciseCompletion_steps; cbn [fst];
    match goal with |- context [fold_left ?f ?news ?w5] =>
      destruct (notifications_frame news w5) as (Hn1 & Hn2 & Hn3 & Hn4 & _) end;
    rewrite ?Hn1, ?Hn2, ?Hn3, ?Hn4; clear Hn1 Hn2 Hn3 Hn4;
    set (w1 := set_userStats w _);
    set (w3 := fst (checkAchievements c ex (fst (checkAndHandleLevelUp w1)))).
  - destruct (snd (checkAndHandleLevelUp w1)); reflexivity.
  - destruct (snd (checkAndHandleLevelUp w1)); reflexivity.
  - intros Hsome.
    assert (Hq3 : is_Some (dailyQuest w3)).
    { subst w3. destruct (checkAchievements_effect c ex (fst (checkAndHandleLevelUp w1)))
        as (_ & _ & _ & _ & -> & _).
      destruct (checkAndHandleLevelUp_effect w1) as (_ & _ & _ & -> & _). exact Hsome. }
    destruct (updateDailyQuestProgress_saved ex w3 Hq3) as [Hsaved _].
    destruct (snd (checkAndHandleLevelUp w1)); cbn; exact Hsaved.
Qed.

(** The first-time user with the quest of the day. *)
Lemma awardExerciseCompletion_persists_witness :
  stored_dailyQuest (storage (fst (awardExerciseCompletion at1000 true eye_exercise newcomer)))
  = dailyQuest (fst (awardExerciseCompletion at1000 true eye_exercise newcomer)).
Proof.
  apply (proj1 (proj2 (proj2
           (awardExerciseCompletion_persists at1000 true eye_exercise newcomer)))).
  vm_compute. eexists. reflexivity.
Defined.

(** X12: whatever the clock says, an award keeps the quest it found: the
    date of the quest is unchanged, so a quest is only ever replaced when the
    service is constructed. *)
Theorem awardExerciseCompletion_keeps_quest (c : Clock) (enabled : bool)
    (ex : Exercise) (w : World) :
  quest_date <$> dailyQuest (fst (awardExerciseCompletion c enabled ex w))
  = quest_date <$> dailyQuest w.
Proof.
  rewrite awardExerciseCompletion_steps. cbn [fst].
  match goal with |- context [fold_left ?f ?news ?w5] =>
    destruct (notifications_frame news w5) as (_ & _ & _ & -> & _) end.
  set (w1 := set_userStats w _).
  set (w3 := fst (checkAchievements c ex (fst (checkAndHandleLevelUp w1)))).
  assert (Hq3 : dailyQuest w3 = dailyQuest w).
  { subst w3. destruct (checkAchievements_effect c ex (fst (checkAndHandleLevelUp w1)))
      as (_ & _ & _ & _ & -> & _).
    destruct (checkAndHandleLevelUp_effect w1) as (_ & _ & _ & -> & _). reflexivity. }
  destruct (updateDailyQuestProgress_effect ex w3) as (_ & Hq4 & _).
  assert (Hfin : quest_date <$> dailyQuest (updateDailyQuestProgress ex w3)
                 = quest_date <$> dailyQuest w).
  { rewrite Hq4, Hq3. destruct (dailyQuest w); reflexivity. }
  destruct (snd (checkAndHandleLevelUp w1)); cbn; exact Hfin.
Qed.


(** X14: for a stored level of at least 1, [getNextLevelInfo] names a level
    of the table above the current one with a positive XP span, or, from
    level 50 on, the current level with the last threshold and full progress;
    the progress never exceeds 100. *)
Theorem getNextLevelInfo_bounds (w : World) (Hlevel : 1 <= level (userStats w)) :
  let info := getNextLevelInfo w in
  (next_xpProgress info <= 100)%Q /\
  (level (userStats w) < 50 ->
   level (userStats w) < next_level info /\ 0 < next_xpRequired info /\
   exists l, l ∈ LEVELS /\ lv_level l = next_level info) /\
  (50 <= level (userStats w) ->
   info = mkNext (level (userStats w)) 25000 100).
Proof.
  unfold getNextLevelInfo, LEVELS.
  cbn [List.find lv_level xpRequired last]. split_levels;
    cbn [List.find lv_level xpRequired next_level next_xpRequired next_xpProgress];
    try lia.
  all: split; [first [apply Qle_refl | apply Q.le_min_l]|].
  all: split; intros; try lia; try reflexivity.
  all: split; [lia|split; [lia|]].
  all: pick_entry.
Qed.

(** A user at level 2 with 180 XP: level 3 is next, 150 XP apart. *)
Lemma getNextLevelInfo_bounds_witness :
  (next_xpProgress (getNextLevelInfo
      (set_userStats emptyWorld (mkUserStats 100 0 0 0 0 0 0 2 180))) <= 100)%Q.
Proof.
  apply (getNextLevelInfo_bounds
           (set_userStats emptyWorld (mkUserStats 100 0 0 0 0 0 0 2 180))).
  vm_compute. discriminate.
Defined.

(** ** Exercise catalog and picker *)

Lemma filter_elem_of {A} (f : A -> bool) (l : list A) (x : A) :
  x ∈ List.filter f l <-> x ∈ l /\ f x = true.
Proof. rewrite !list_elem_of_In. apply filter_In. Qed.

(** X15: every exercise of the catalog is consistent with its steps: the
    step durations are positive and add up to the declared duration, which is
    60, 180 or 300 seconds for the categories of 1, 3 and 5 minutes. *)
Theorem catalog_steps_add_up (ex : Exercise) (Hin : ex ∈ EXERCISES) :
  sumZ (step_duration <$> steps ex) = ex_duration ex /\
  steps ex <> [] /\
  Forall (fun st => 0 < step_duration st) (steps ex) /\
  match category ex with
  | Cat1min => ex_duration ex = 60
  | Cat3min => ex_duration ex = 180
  | Cat5min => ex_duration ex = 300
  | CatTargeted => 0 < ex_duration ex
  | CatOther => False
  end.
Proof.
  unfold EXERCISES in Hin.
  repeat (apply elem_of_cons in Hin as [-> | Hin];
          [ cbn; split; [reflexivity|]; split; [discriminate|];
            split; [repeat constructor | reflexivity] |]).
  inversion Hin.
Qed.

Lemma catalog_steps_add_up_witness :
  sumZ (step_duration <$> steps eye_exercise) = ex_duration eye_exercise.
Proof.
  apply (catalog_steps_add_up eye_exercise). apply list_elem_of_here.
Defined.

Lemma getExerciseById_sound (id : string) (ex : Exercise) :
  getExerciseById id = Some ex -> ex ∈ EXERCISES /\ ex_id ex = id.
Proof.
  unfold getExerciseById. intros Hfind. apply find_some in Hfind as [Hin Heq].
  split; [apply list_elem_of_In, Hin | apply String.eqb_eq, Heq].
Qed.

Lemma getExerciseById_complete (ex : Exercise) :
  ex ∈ EXERCISES -> getExerciseById (ex_id ex) = Some ex.
Proof.
  unfold EXERCISES. intros Hin.
  repeat (apply elem_of_cons in Hin as [-> | Hin]; [reflexivity|]).
  inversion Hin.
Qed.

(** X16: identifiers of the catalog are unique keys: looking up the
    identifier of a catalog exercise returns that exercise, a successful
    lookup returns a catalog exercise with the identifier asked for, and
    [executeExerciseById] on an identifier that is not in the catalog runs
    no session: it reports the identifier as not found and leaves the state
    as it was. *)
Theorem getExerciseById_round_trip (id : string) (ex : Exercise) :
  (ex ∈ EXERCISES -> getExerciseById (ex_id ex) = Some ex) /\
  (getExerciseById id = Some ex -> ex ∈ EXERCISES /\ ex_id ex = id) /\
  ((forall e, e ∈ EXERCISES -> ex_id e <> id) ->
   forall refs c enabled s w,
     executeExerciseById refs c enabled id s w = (w, NotFoundError id)).
Proof.
  split; [apply getExerciseById_complete|]. split; [apply getExerciseById_sound|].
  intros Hnone refs c enabled s w. unfold executeExerciseById.
  destruct (getExerciseById id) as [e|] eqn:Hfind; [|reflexivity].
  apply getExerciseById_sound in Hfind as [Hin Hid]. destruct (Hnone e Hin Hid).
Qed.

Lemma getExerciseById_round_trip_witness :
  getExerciseById "eye_exercise" = Some eye_exercise /\
  executeExerciseById wired at1000 true "jumping_jacks" skipAll newcomer
  = (newcomer, NotFoundError "jumping_jacks").
Proof.
  split.
  - apply (proj1 (getExerciseById_round_trip "eye_exercise" eye_exercise)).
    apply list_elem_of_here.
  - apply (proj2 (proj2 (getExerciseById_round_trip "jumping_jacks" eye_exercise))).
    intros e He. unfold EXERCISES in He.
    repeat (apply elem_of_cons in He as [-> | He]; [vm_compute; discriminate|]).
    inversion He.
Defined.

(** X17: a picker opened for a suggested duration other than 0 is never
    empty and offers only catalog exercises of one category: 1 minute up to
    60 seconds, 3 minutes up to 180, 5 minutes above; so each offered exercise
    lasts 60, 180 or 300 seconds, and a two-minute suggestion offers
    three-minute exercises. *)
Theorem picker_offers_one_category (d : Z) (Hd : d <> 0) :
  let items := createExerciseQuickPickItems (Some d) in
  items <> [] /\
  forall ex, ex ∈ items ->
    ex ∈ EXERCISES /\
    category ex = (if d <=? 60 then Cat1min else if d <=? 180 then Cat3min else Cat5min) /\
    ex_duration ex = (if d <=? 60 then 60 else if d <=? 180 then 180 else 300).
Proof.
  unfold createExerciseQuickPickItems.
  destruct (Z.eqb_spec d 0) as [E | _]; [contradiction|].
  destruct (d <=? 60); [|destruct (d <=? 180)].
  all: split; [vm_compute; discriminate|].
  all: intros ex [Hin Hcat]%filter_elem_of; split; [exact Hin|].
  all: unfold EXERCISES in Hin;
    repeat (apply elem_of_cons in Hin as [-> | Hin];
            [first [discriminate Hcat | split; reflexivity]|]);
    inversion Hin.
Qed.

(** The "2-min Break" of the post-commit prompt asks for 120 seconds. *)
Lemma picker_offers_one_category_witness :
  createExerciseQuickPickItems (Some 120) <> [] /\
  forall ex, ex ∈ createExerciseQuickPickItems (Some 120) ->
    ex ∈ EXERCISES /\
    category ex = (if 120 <=? 60 then Cat1min else if 120 <=? 180 then Cat3min else Cat5min) /\
    ex_duration ex = (if 120 <=? 60 then 60 else if 120 <=? 180 then 180 else 300).
Proof.
  apply (picker_offers_one_category 120). discriminate.
Defined.

(** At every hour the recommendation is a non-empty selection of
    catalog exercises. *)
Lemma getRecommendedExercises_nonempty (c : Clock) :
  getRecommendedExercises c <> [] /\
  forall ex, ex ∈ getRecommendedExercises c -> ex ∈ EXERCISES.
Proof.
  unfold getRecommendedExercises.
  destruct (getHours c <? 10); [|destruct ((14 <? getHours c) && (getHours c <? 17))].
  - split; [vm_compute; discriminate|]. intros ex [Hin _]%filter_elem_of. exact Hin.
  - split; [vm_compute; discriminate|]. intros ex [Hin _]%filter_elem_of. exact Hin.
  - split; [discriminate|]. auto.
Qed.

Lemma Qfloor_index (rnd : Q) (n : nat) :
  (0 <= rnd)%Q -> (rnd < 1)%Q -> (0 < n)%nat ->
  0 <= Qfloor (rnd * inject_Z (Z.of_nat n)) < Z.of_nat n.
Proof.
  intros Hlo Hhi Hn.
  assert (Hpos : (0 < inject_Z (Z.of_nat n))%Q).
  { change 0%Q with (inject_Z 0). rewrite <- Zlt_Qlt. lia. }
  split.
  - change 0 with (Qfloor 0). apply Qfloor_resp_le.
    apply Qmult_le_0_compat; [exact Hlo | apply Qlt_le_weak, Hpos].
  - rewrite Zlt_Qlt.
    eapply Qle_lt_trans; [apply Qfloor_le|].
    eapply Qlt_le_trans; [apply Qmult_lt_compat_r; [exact Hpos | exact Hhi]|].
    rewrite Qmult_1_l. apply Qle_refl.
Qed.

(** X18: for a draw in [0,1) and one of the four categories of the
    catalog, or none, [getRandomExercise] returns a catalog exercise, of the
    category asked for when one is given. *)
Theorem getRandomExercise_in_pool (rnd : Q) (cat : option Category)
    (Hlo : (0 <= rnd)%Q) (Hhi : (rnd < 1)%Q) (Hcat : cat <> Some CatOther) :
  exists ex,
    getRandomExercise rnd cat = Some ex /\
    ex ∈ EXERCISES /\
    forall k, cat = Some k -> category ex = k.
Proof.
  unfold getRandomExercise.
  set (pool := match cat with
               | Some k => getExercisesByCategory k
               | None => EXERCISES
               end).
  assert (Hlen : (0 < length pool)%nat).
  { subst pool. destruct cat as [[| | | |]|]; try congruence; vm_compute; lia. }
  destruct (Qfloor_index rnd (length pool) Hlo Hhi Hlen) as [Hi0 Hi1].
  destruct (Z.ltb_spec (Qfloor (rnd * inject_Z (Z.of_nat (length pool)))) 0); [lia|].
  destruct (lookup_lt_is_Some_2 pool
              (Z.to_nat (Qfloor (rnd * inject_Z (Z.of_nat (length pool))))))
    as [ex Hex]; [lia|].
  exists ex. split; [exact Hex|].
  apply list_elem_of_lookup_2 in Hex. subst pool.
  destruct cat as [k|].
  - apply filter_elem_of in Hex as [Hin Hk]. split; [exact Hin|].
    intros k' [= <-]. destruct (category ex), k; try discriminate; reflexivity.
  - split; [exact Hex | discriminate].
Qed.

Lemma getRandomExercise_in_pool_witness :
  exists ex,
    getRandomExercise (7 # 10) (Some Cat5min) = Some ex /\
    ex ∈ EXERCISES /\
    forall k, Some Cat5min = Some k -> category ex = k.
Proof.
  apply (getRandomExercise_in_pool (7 # 10) (Some Cat5min)).
  - vm_compute. discriminate.
  - vm_compute. reflexivity.
  - discriminate.
Defined.

(** ** Exercise sessions: what is displayed, and the break command *)

Lemma runSteps_trace_stop s total rem : forall i w k,
  (k < length rem)%nat ->
  stepOutcome s (i + k) = StopExercise ->
  (forall j, (j < k)%nat -> stepOutcome s (i + j) <> StopExercise) ->
  ui (fst (runSteps s total i rem w))
  = ui w ++ ((fun j => StepPrompt (Z.of_nat j + 1) total) <$> seq i (S k)).
Proof.
  induction rem as [| st rem IH]; intros i w k Hk Hstop Hbefore; cbn [length] in Hk; [lia|].
  cbn [runSteps]. destruct k as [| k].
  - rewrite Nat.add_0_r in Hstop. rewrite Hstop. reflexivity.
  - assert (Hgo : executeStep (stepOutcome s i) = true).
    { specialize (Hbefore 0%nat ltac:(lia)). rewrite Nat.add_0_r in Hbefore.
      destruct (stepOutcome s i); try reflexivity. contradiction. }
    rewrite Hgo. rewrite (IH (S i) _ k); [| lia | | ].
    + cbn [show ui]. rewrite <- app_assoc. reflexivity.
    + rewrite <- Hstop. f_equal. lia.
    + intros j Hj. replace (S i + j)%nat with (i + S j)%nat by lia. apply Hbefore. lia.
Qed.

Lemma not_begin (r : option string) :
  r <> Some "Begin" -> JS.is_string r "Begin" = false.
Proof.
  destruct r as [x|]; [|reflexivity]. intros Hne. cbn.
  destruct (String.eqb_spec x "Begin") as [-> | _]; [contradiction | reflexivity].
Qed.

(** X19: in a session the user stops at step [k+1], the display shows the
    start prompt, the prompts of the steps 1 to [k+1] in order and the
    cancellation message, and nothing else: no later step is shown. *)
Theorem stopped_session_display (refs : Refs) (c : Clock) (enabled : bool)
    (s : Session) (ex : Exercise) (w : World) (k : nat)
    (Hbegin : startResponse s = Some "Begin")
    (Hk : (k < length (steps ex))%nat)
    (Hstop : stepOutcome s k = StopExercise)
    (Hbefore : forall j, (j < k)%nat -> stepOutcome s j <> StopExercise) :
  ui (executeExercise refs c enabled s ex w)
  = ui w ++ StartPrompt (ex_name ex)
       :: stepPrompts (Z.of_nat (length (steps ex))) (S k) ++ [CancelledMessage].
Proof.
  unfold executeExercise. rewrite Hbegin. cbn [JS.is_string].
  rewrite String.eqb_refl. cbn [negb].
  pose proof (runSteps_stopped s (Z.of_nat (length (steps ex))) (steps ex) 0%nat
                (show (StartPrompt (ex_name ex)) w) k Hk Hstop) as Hfalse.
  pose proof (runSteps_trace_stop s (Z.of_nat (length (steps ex))) (steps ex) 0%nat
                (show (StartPrompt (ex_name ex)) w) k Hk Hstop Hbefore) as Htrace.
  destruct (runSteps _ _ _ _ _) as [w1 completed]. cbn [fst snd] in *. subst completed.
  cbn [show ui] in *. rewrite Htrace. unfold stepPrompts.
  rewrite <- !app_assoc. reflexivity.
Qed.

(** The eye exercise stopped at its second step. *)
Lemma stopped_session_display_witness :
  ui (executeExercise wired at1000 true stopAtSecond eye_exercise newcomer)
  = ui newcomer ++ StartPrompt (ex_name eye_exercise)
       :: stepPrompts (Z.of_nat (length (steps eye_exercise))) 2 ++ [CancelledMessage].
Proof.
  apply (stopped_session_display wired at1000 true stopAtSecond eye_exercise newcomer 1).
  - reflexivity.
  - vm_compute. lia.
  - reflexivity.
  - intros j Hj. assert (j = 0%nat) as -> by lia. discriminate.
Defined.

Lemma executeExercise_without_record refs c enabled s ex w :
  startResponse s <> Some "Begin" \/
  (exists i, (i < length (steps ex))%nat /\ stepOutcome s i = StopExercise) ->
  sameData w (executeExercise refs c enabled s ex w).
Proof.
  intros Hcase. unfold executeExercise.
  destruct (negb (JS.is_string (startResponse s) "Begin")) eqn:Hstart;
    [apply sameData_show, sameData_refl|].
  destruct Hcase as [Hne | (i & Hi & Hstop)].
  - rewrite (not_begin _ Hne) in Hstart. discriminate.
  - pose proof (runSteps_stopped s (Z.of_nat (length (steps ex))) (steps ex) 0%nat
                  (show (StartPrompt (ex_name ex)) w) i Hi Hstop) as Hfalse.
    pose proof (runSteps_sameData s (Z.of_nat (length (steps ex))) (steps ex) 0%nat
                  (show (StartPrompt (ex_name ex)) w)) as Hsame.
    destruct (runSteps _ _ _ _ _) as [w1 completed]. cbn [fst snd] in *.
    subst completed. exact Hsame.
Qed.

(** X20: the command "take a break now" counts a break and resets the work
    minutes as soon as an exercise is picked, also when the session is then
    declined or stopped and nothing is recorded; leaving the picker without a
    choice changes nothing in the reminder state. *)
Theorem triggerBreakNow_counts_the_pick (refs : Refs) (c : Clock) (enabled : bool)
    (ex : Exercise) (session : Session) (r : ReminderService.t) (w : World) :
  let picked := Commands.triggerBreakNow refs c enabled (Some ex) session (r, w) in
  ReminderService.todayBreakCount (fst picked) = ReminderService.todayBreakCount r + 1 /\
  ReminderService.consecutiveWorkMinutes (fst picked) = 0 /\
  fst (Commands.triggerBreakNow refs c enabled None session (r, w)) = r /\
  (startResponse session <> Some "Begin" \/
   (exists i, (i < length (steps ex))%nat /\ stepOutcome session i = StopExercise) ->
   sameData w (snd picked)).
Proof.
  cbv zeta. unfold Commands.triggerBreakNow, showExercisePicker. cbn [fst snd].
  split; [reflexivity|]. split; [reflexivity|]. split; [reflexivity|].
  intros Hcase.
  exact (executeExercise_without_record refs c enabled session ex
           (show (ExercisePicker None) w) Hcase).
Qed.

Lemma triggerBreakNow_counts_the_pick_witness :
  sameData newcomer
    (snd (Commands.triggerBreakNow wired at1000 true (Some eye_exercise) stopAtSecond
            (ReminderService.initial at1000, newcomer))).
Proof.
  apply (proj2 (proj2 (proj2
           (triggerBreakNow_counts_the_pick wired at1000 true eye_exercise stopAtSecond
              (ReminderService.initial at1000) newcomer)))).
  right. exists 1%nat. split; [vm_compute; lia | reflexivity].
Defined.

(** ** Reminder service: ticks, pause and snooze, buttons, restart *)

Lemma tick_outcomes (cfg : Config) (e : Env) (s : ReminderService.t) :
  50 < codeInputFrequency s \/ debugging e = true ->
  checkAndNotify cfg e s = s \/
  checkAndNotify cfg e s
  = saveState (ReminderService.mk (paused s) (snoozedUntil s) (lastActivityTime s)
                 (lastCommitTime s) (consecutiveWorkMinutes s + 1)
                 (codeInputFrequency s) (todayBreakCount s) (reminderState s) (shown s)).
Proof.
  intros Hbusy. unfold checkAndNotify.
  destruct (isPaused (clock e) s); [left; reflexivity|].
  destruct (isDoNotDisturbTime cfg (clock e)) as [[|]|]; try (left; reflexivity).
  right. unfold shouldShowReminder, getReminderContext.
  cbn [isDebugging ctx_codeInputFrequency codeInputFrequency].
  destruct (debugging e) eqn:Hdbg; [reflexivity|].
  destruct Hbusy as [Hfreq | Habs]; [|discriminate].
  apply Z.ltb_lt in Hfreq. rewrite Hfreq. reflexivity.
Qed.

(** X21: a tick while paused, snoozed or inside a Do-Not-Disturb window
    leaves the whole state as it is, so the work minutes do not advance; a
    tick during a debug session or intense typing shows nothing either, but
    counts one more work minute. *)
Theorem tick_frozen_or_counting (cfg : Config) (e : Env) (s : ReminderService.t) :
  (isPaused (clock e) s = true \/ isDoNotDisturbTime cfg (clock e) = Some true ->
   checkAndNotify cfg e s = s) /\
  (isPaused (clock e) s = false -> isDoNotDisturbTime cfg (clock e) = Some false ->
   debugging e = true \/ 50 < codeInputFrequency s ->
   consecutiveWorkMinutes (checkAndNotify cfg e s) = consecutiveWorkMinutes s + 1 /\
   shown (checkAndNotify cfg e s) = shown s /\
   todayBreakCount (checkAndNotify cfg e s) = todayBreakCount s).
Proof.
  split.
  - intros [Hp | Hd]; unfold checkAndNotify.
    + rewrite Hp. reflexivity.
    + destruct (isPaused (clock e) s); [reflexivity|]. rewrite Hd. reflexivity.
  - intros Hp Hd Hbusy.
    destruct (tick_outcomes cfg e s ltac:(tauto)) as [Hsame | ->];
      [|repeat split].
    unfold checkAndNotify in Hsame. rewrite Hp, Hd in Hsame.
    apply (f_equal consecutiveWorkMinutes) in Hsame. revert Hsame.
    unfold shouldShowReminder, getReminderContext.
    cbn [isDebugging ctx_codeInputFrequency codeInputFrequency].
    destruct (debugging e) eqn:Hdbg; [cbn; lia|].
    destruct Hbusy as [Habs | Hfreq]; [discriminate|].
    apply Z.ltb_lt in Hfreq. rewrite Hfreq. cbn. lia.
Qed.

(** A paused service, and a service during a debug session outside the
    lunch window. *)
Lemma tick_frozen_or_counting_witness :
  checkAndNotify defaultConfig (quietEnv (1 # 4)) (pause (initial at1000))
  = pause (initial at1000) /\
  consecutiveWorkMinutes
    (checkAndNotify defaultConfig (mkEnv at1000 true (1 # 4) 0 None) (initial at1000))
  = consecutiveWorkMinutes (initial at1000) + 1.
Proof.
  split.
  - apply (proj1 (tick_frozen_or_counting defaultConfig (quietEnv (1 # 4))
                    (pause (initial at1000)))).
    left. reflexivity.
  - apply (proj2 (tick_frozen_or_counting defaultConfig
                    (mkEnv at1000 true (1 # 4) 0 None) (initial at1000))).
    + reflexivity.
    + vm_compute. reflexivity.
    + left. reflexivity.
Defined.

(** X22: pausing silences the service at every instant and resuming ends
    both a pause and a snooze; a snooze of [m] minutes on a service that is
    not paused silences it exactly until [m] minutes after it was requested. *)
Theorem pause_resume_snooze (c c' : Clock) (m : Z) (s : ReminderService.t) :
  isPaused c' (pause s) = true /\
  isPaused c' (resume s) = false /\
  isPaused c' (resume (snooze c m s)) = false /\
  (paused s = false ->
   (isPaused c' (snooze c m s) = true <-> now c' < now c + m * 60000)).
Proof.
  split; [reflexivity|]. split; [reflexivity|]. split; [reflexivity|].
  intros Hnot. unfold isPaused, snooze, saveState. cbn [paused snoozedUntil].
  rewrite Hnot. cbn [orb]. rewrite Z.ltb_lt. lia.
Qed.

(** A thirty-minute snooze requested at 10:00, seen at 10:29. *)
Lemma pause_resume_snooze_witness :
  isPaused (utc (minutes 2069)) (snooze at1000 30 (initial at1000)) = true <->
  now (utc (minutes 2069)) < now at1000 + 30 * 60000.
Proof.
  apply (proj2 (proj2 (proj2
           (pause_resume_snooze at1000 (utc (minutes 2069)) 30 (initial at1000))))).
  reflexivity.
Defined.



(** X24: a restart of the editor restores what [saveState] wrote: the pause
    flag, the work minutes and today's break count (whatever the day of the
    restart), and the snooze and commit times unless they are the epoch 0,
    which reads back as absent; the input intensity starts again at 0. *)
Theorem restart_restores_saved_state (c' : Clock) (s : ReminderService.t) :
  let s' := ReminderService.construct c' (reminderState (saveState s)) in
  paused s' = paused s /\
  consecutiveWorkMinutes s' = consecutiveWorkMinutes s /\
  todayBreakCount s' = todayBreakCount s /\
  snoozedUntil s' = (if decide (snoozedUntil s = Some 0) then None else snoozedUntil s) /\
  lastCommitTime s'
  = (if decide (lastCommitTime s = Some 0) then None else lastCommitTime s) /\
  codeInputFrequency s' = 0 /\ shown s' = [] /\ lastActivityTime s' = now c'.
Proof.
  cbv zeta. unfold ReminderService.construct, loadState, saveState.
  cbn [reminderState sv_paused sv_snoozedUntil sv_lastCommitTime
       sv_consecutiveWorkMinutes sv_todayBreakCount paused consecutiveWorkMinutes
       todayBreakCount snoozedUntil lastCommitTime codeInputFrequency shown
       lastActivityTime JS.or_number truthyTime].
  repeat split.
  - destruct (Z.eqb_spec (consecutiveWorkMinutes s) 0) as [-> | _]; reflexivity.
  - destruct (Z.eqb_spec (todayBreakCount s) 0) as [-> | _]; reflexivity.
  - destruct (snoozedUntil s) as [n|]; cbn [truthyTime]; [|reflexivity].
    destruct (Z.eqb_spec n 0) as [-> | Hn]; [reflexivity|].
    rewrite decide_False by congruence. reflexivity.
  - destruct (lastCommitTime s) as [n|]; cbn [truthyTime]; [|reflexivity].
    destruct (Z.eqb_spec n 0) as [-> | Hn]; [reflexivity|].
    rewrite decide_False by congruence. reflexivity.
Qed.

Lemma tick_keeps_while_intense (cfg : Config) (e : Env) (s : ReminderService.t) :
  50 < codeInputFrequency s ->
  let s' := checkAndNotify cfg e s in
  shown s' = shown s /\ codeInputFrequency s' = codeInputFrequency s /\
  todayBreakCount s' = todayBreakCount s.
Proof.
  intros Hfreq. destruct (tick_outcomes cfg e s (or_introl Hfreq)) as [-> | ->];
    repeat split.
Qed.

(** X25: the input intensity is never lowered by the timer.  Once it is
    above 50, any number of ticks, whatever the clock, the settings and the
    answers of the user, shows nothing and counts no break. *)
Theorem ticks_silent_while_intense (cfg : Config) (envs : list Env)
    (s : ReminderService.t) (Hintense : 50 < codeInputFrequency s) :
  shown (ticks cfg envs s) = shown s /\
  codeInputFrequency (ticks cfg envs s) = codeInputFrequency s /\
  todayBreakCount (ticks cfg envs s) = todayBreakCount s.
Proof.
  unfold ticks. revert s Hintense.
  induction envs as [| e envs IH]; intros s Hintense; cbn [fold_left]; [repeat split|].
  destruct (tick_keeps_while_intense cfg e s Hintense) as (Hs & Hf & Hb).
  destruct (IH (checkAndNotify cfg e s)) as (IHs & IHf & IHb); [lia|].
  rewrite IHs, IHf, IHb. repeat split; assumption.
Qed.

(** Two hours of ticks after a burst of typing, with the user idle since. *)
Lemma ticks_silent_while_intense_witness :
  shown (ticks defaultConfig (replicate 120 (quietEnv (3 # 4)))
           (snd (onDidChangeTextDocument at1000 [80] ([], initial at1000))))
  = shown (snd (onDidChangeTextDocument at1000 [80] ([], initial at1000))).
Proof.
  apply (proj1 (ticks_silent_while_intense defaultConfig
                  (replicate 120 (quietEnv (3 # 4)))
                  (snd (onDidChangeTextDocument at1000 [80] ([], initial at1000)))
                  ltac:(vm_compute; reflexivity))).
Defined.

Lemma fold_left_add (l : list Z) (z : Z) :
  fold_left (fun a b => a + b) l z = z + sumZ l.
Proof.
  revert z. induction l as [| x l IH]; intros z; cbn [fold_left sumZ foldr]; [lia|].
  rewrite IH. unfold sumZ. lia.
Qed.

(** X26: the input intensity is the sum of the character counts of the
    last 60 document-change events, however old they are: an event appends
    its count to the window, the oldest count leaves once there are more than
    60, and the event stamps the time of the last activity. *)
Theorem input_intensity_window (c : Clock) (changes recent : list Z)
    (s : ReminderService.t) (Hlen : (length recent <= 60)%nat) :
  let r := onDidChangeTextDocument c changes (recent, s) in
  fst r = (if (length recent <? 60)%nat then recent else drop 1 recent) ++ [sumZ changes] /\
  (length (fst r) <= 60)%nat /\
  codeInputFrequency (snd r) = sumZ (fst r) /\
  lastActivityTime (snd r) = now c /\
  consecutiveWorkMinutes (snd r) = consecutiveWorkMinutes s.
Proof.
  cbv zeta. unfold onDidChangeTextDocument. cbn [fst snd codeInputFrequency
    lastActivityTime consecutiveWorkMinutes].
  rewrite !fold_left_add, Z.add_0_l.
  assert (Hwin :
    (if (60 <? length (recent ++ [sumZ changes]))%nat
     then drop 1 (recent ++ [sumZ changes]) else recent ++ [sumZ changes])
    = (if (length recent <? 60)%nat then recent else drop 1 recent) ++ [sumZ changes]).
  { rewrite length_app. cbn [length].
    destruct (Nat.ltb_spec 60 (length recent + 1)), (Nat.ltb_spec (length recent) 60);
      try lia; [|reflexivity].
    rewrite drop_app_le by lia. reflexivity. }
  rewrite Hwin. repeat split.
  rewrite length_app. cbn [length].
  destruct (Nat.ltb_spec (length recent) 60); [lia|]. rewrite length_drop. lia.
Qed.

Lemma input_intensity_window_witness :
  fst (onDidChangeTextDocument at1000 [3; 4] (replicate 60 1, initial at1000))
  = (if (length (replicate 60 1) <? 60)%nat
     then replicate 60 1 else drop 1 (replicate 60 1)) ++ [sumZ [3; 4]].
Proof.
  apply (proj1 (input_intensity_window at1000 [3; 4] (replicate 60 1) (initial at1000)
                  ltac:(vm_compute; lia))).
Defined.

Lemma quiet_tick (cfg : Config) (e : Env) (s : ReminderService.t) :
  frequency cfg = "smart" -> lastCommitTime s = None ->
  consecutiveWorkMinutes s + 1 < 45 ->
  let s' := checkAndNotify cfg e s in
  shown s' = shown s /\ lastCommitTime s' = None /\
  consecutiveWorkMinutes s' <= consecutiveWorkMinutes s + 1.
Proof.
  intros Hsmart Hcommit Hlow. cbv zeta. unfold checkAndNotify.
  destruct (isPaused (clock e) s); [repeat split; [assumption | lia]|].
  destruct (isDoNotDisturbTime cfg (clock e)) as [[|]|];
    try (repeat split; [assumption | lia]).
  assert (Hno : shouldShowReminder cfg e
                  (getReminderContext e
                     (ReminderService.mk (paused s) (snoozedUntil s) (lastActivityTime s)
                        (lastCommitTime s) (consecutiveWorkMinutes s + 1)
                        (codeInputFrequency s) (todayBreakCount s) (reminderState s)
                        (shown s))) = false).
  { unfold shouldShowReminder, getReminderContext.
    cbn [isDebugging ctx_codeInputFrequency ctx_consecutiveWorkMinutes
         ctx_todayBreakCount ctx_lastCommitTime lastCommitTime consecutiveWorkMinutes
         codeInputFrequency todayBreakCount].
    rewrite (smart_mode cfg Hsmart), Hcommit.
    destruct (debugging e); [reflexivity|].
    destruct (50 <? codeInputFrequency s); [reflexivity|].
    destruct (Z.leb_spec 120 (consecutiveWorkMinutes s + 1)); [lia|].
    destruct (Z.leb_spec 90 (consecutiveWorkMinutes s + 1)); [lia|].
    destruct (Z.leb_spec 45 (consecutiveWorkMinutes s + 1)); [lia|].
    reflexivity. }
  rewrite Hno. cbn. repeat split; [assumption | lia].
Qed.

(** X27: in smart mode, with no commit on record, no reminder is shown
    before the 45th minute of work: a run of ticks that keeps the work minutes
    below 45 displays nothing, so after an accepted break the next 44 ticks
    are silent. *)
Theorem ticks_silent_before_45 (cfg : Config) (envs : list Env) (s : ReminderService.t)
    (Hsmart : frequency cfg = "smart")
    (Hcommit : lastCommitTime s = None)
    (Hlow : consecutiveWorkMinutes s + Z.of_nat (length envs) < 45) :
  shown (ticks cfg envs s) = shown s.
Proof.
  unfold ticks. revert s Hcommit Hlow.
  induction envs as [| e envs IH]; intros s Hcommit Hlow; cbn [fold_left]; [reflexivity|].
  cbn [length] in Hlow.
  destruct (quiet_tick cfg e s Hsmart Hcommit ltac:(lia)) as (Hs & Hc & Hm).
  rewrite IH; [exact Hs | exact Hc | lia].
Qed.

(** Forty-four ticks from a fresh service, with draws that would win. *)
Lemma ticks_silent_before_45_witness :
  shown (ticks defaultConfig (replicate 44 (quietEnv (3 # 4))) (initial at1000))
  = shown (initial at1000).
Proof.
  apply (ticks_silent_before_45 defaultConfig (replicate 44 (quietEnv (3 # 4)))
           (initial at1000)).
  - reflexivity.
  - reflexivity.
  - vm_compute. reflexivity.
Defined.

Lemma handleReminderResponse_appends (e : Env) (r : string) (s : ReminderService.t) :
  exists ev, shown (handleReminderResponse e r s) = shown s ++ [ev].
Proof.
  unfold handleReminderResponse. destruct (JS.includes "Snooze" r); eexists; reflexivity.
Qed.

(** X28: there is no pause between reminders.  In smart mode with the
    toast style, outside every suppression condition, each tick that brings
    the work minutes to 90 or more displays a reminder, standard below 120
    minutes and strong from 120 on, until the user takes a break or snoozes. *)
Theorem tick_reminds_every_minute_from_90 (cfg : Config) (e : Env) (s : ReminderService.t)
    (Hsmart : frequency cfg = "smart") (Hstyle : style cfg = "toast")
    (Hpaused : isPaused (clock e) s = false)
    (Hdnd : isDoNotDisturbTime cfg (clock e) = Some false)
    (Hdebug : debugging e = false)
    (Hinput : codeInputFrequency s <= 50)
    (Hwork : 89 <= consecutiveWorkMinutes s) :
  let severity := if 119 <=? consecutiveWorkMinutes s then Strong else Standard in
  exists rest,
    shown (checkAndNotify cfg e s)
    = shown s ++ ReminderNotification severity (getReminderMessage e severity)
                   (getReminderActions severity) :: rest.
Proof.
  cbv zeta. unfold checkAndNotify. rewrite Hpaused, Hdnd.
  assert (Hyes : shouldShowReminder cfg e
                   (getReminderContext e
                      (ReminderService.mk (paused s) (snoozedUntil s) (lastActivityTime s)
                         (lastCommitTime s) (consecutiveWorkMinutes s + 1)
                         (codeInputFrequency s) (todayBreakCount s) (reminderState s)
                         (shown s))) = true).
  { unfold shouldShowReminder, getReminderContext.
    cbn [isDebugging ctx_codeInputFrequency ctx_consecutiveWorkMinutes
         consecutiveWorkMinutes codeInputFrequency].
    rewrite Hdebug, (smart_mode cfg Hsmart).
    destruct (Z.ltb_spec 50 (codeInputFrequency s)); [lia|].
    destruct (Z.leb_spec 120 (consecutiveWorkMinutes s + 1)); [reflexivity|].
    destruct (Z.leb_spec 90 (consecutiveWorkMinutes s + 1)); [reflexivity | lia]. }
  rewrite Hyes. unfold showReminder. rewrite Hstyle.
  replace (String.eqb "toast" "toast" || String.eqb "toast" "statusBar") with true
    by reflexivity.
  assert (Hsev : severityOf
                   (getReminderContext e
                      (ReminderService.mk (paused s) (snoozedUntil s) (lastActivityTime s)
                         (lastCommitTime s) (consecutiveWorkMinutes s + 1)
                         (codeInputFrequency s) (todayBreakCount s) (reminderState s)
                         (shown s)))
                 = if 119 <=? consecutiveWorkMinutes s then Strong else Standard).
  { unfold severityOf, getReminderContext. cbn [ctx_consecutiveWorkMinutes consecutiveWorkMinutes].
    destruct (Z.leb_spec 120 (consecutiveWorkMinutes s + 1)),
             (Z.leb_spec 119 (consecutiveWorkMinutes s)); try lia; [reflexivity|].
    destruct (Z.ltb_spec (consecutiveWorkMinutes s + 1) 60); [lia | reflexivity]. }
  rewrite Hsev.
  destruct (response e) as [r|]; [destruct (String.eqb r "")|].
  - eexists. reflexivity.
  - match goal with
    | |- context [handleReminderResponse e r ?s1] =>
        destruct (handleReminderResponse_appends e r s1) as [ev Hev]
    end.
    exists [ev].
    change (shown (saveState ?x)) with (shown x).
    rewrite Hev. cbn [display shown]. rewrite <- app_assoc. reflexivity.
  - eexists. reflexivity.
Qed.

(** The 95th minute of work, with a user who ignores the reminder. *)
Lemma tick_reminds_every_minute_from_90_witness :
  exists rest,
    shown (checkAndNotify defaultConfig (quietEnv (1 # 4))
             (ReminderService.mk false None (minutes 2040) None 94 0 0 None []))
    = [] ++ ReminderNotification Standard
              (getReminderMessage (quietEnv (1 # 4)) Standard)
              (getReminderActions Standard) :: rest.
Proof.
  apply (tick_reminds_every_minute_from_90 defaultConfig (quietEnv (1 # 4))
           (ReminderService.mk false None (minutes 2040) None 94 0 0 None [])).
  - reflexivity.
  - reflexivity.
  - reflexivity.
  - vm_compute. reflexivity.
  - reflexivity.
  - vm_compute. discriminate.
  - vm_compute. discriminate.
Defined.

(** ** Commit messages and commit detection *)

Lemma prefix_append (n rest : string) : String.prefix n (String.append n rest) = true.
Proof.
  induction n as [| ch n IH].
  - destruct rest; reflexivity.
  - change (String.append (String ch n) rest) with (String ch (String.append n rest)).
    cbn [String.prefix].
    destruct (ascii_dec ch ch) as [_ | Hne]; [exact IH | contradiction].
Qed.

Lemma includes_append (n pre post : string) :
  JS.includes n (String.append pre (String.append n post)) = true.
Proof.
  induction pre as [| ch pre IH].
  - change (String.append "" (String.append n post)) with (String.append n post).
    destruct n as [| a n]; [destruct post; reflexivity|].
    change (String.append (String a n) post) with (String a (String.append n post)).
    cbn [JS.includes].
    change (String a (String.append n post)) with (String.append (String a n) post).
    rewrite prefix_append. reflexivity.
  - change (String.append (String ch pre) (String.append n post))
      with (String ch (String.append pre (String.append n post))).
    cbn [JS.includes]. rewrite IH. apply orb_true_r.
Qed.

Lemma toLowerCase_append (a b : string) :
  JS.toLowerCase (String.append a b)
  = String.append (JS.toLowerCase a) (JS.toLowerCase b).
Proof.
  induction a as [| ch a IH]; [reflexivity|].
  change (String.append (String ch a) b) with (String ch (String.append a b)).
  cbn [JS.toLowerCase]. rewrite IH. reflexivity.
Qed.

(** X29: a commit message that contains one of the words "finally",
    "done", "complete", "success" or "yay" anywhere, in any letter case, is
    read as a celebration, whatever else it contains: "fix: DONE" is a
    celebration although it mentions a fix. *)
Theorem celebration_word_wins (pre word post : string)
    (Hword : JS.toLowerCase word ∈ ["finally"; "done"; "complete"; "success"; "yay"]) :
  detectCommitEmotion (String.append pre (String.append word post)) = Celebration.
Proof.
  unfold detectCommitEmotion. rewrite !toLowerCase_append.
  set (lower := String.append _ _).
  assert (Hfound : JS.includes (JS.toLowerCase word) lower = true)
    by apply includes_append.
  cbn [existsb].
  repeat (apply elem_of_cons in Hword as [Hw | Hword];
          [rewrite Hw in Hfound; rewrite Hfound, ?orb_true_r; reflexivity|]).
  inversion Hword.
Qed.

Lemma celebration_word_wins_witness :
  detectCommitEmotion (String.append "fix: " (String.append "DONE" "")) = Celebration.
Proof.
  apply (celebration_word_wins "fix: " "DONE" "").
  vm_compute. repeat constructor.
Defined.

(** X30: commit detection compares the HEAD it sees with the one HEAD it
    saw last.  The first HEAD seen is recorded without a notification; after
    that a state change notifies exactly when the HEAD differs from the
    recorded one; when the commit cannot be read the recorded HEAD is kept, so
    the next event tries again; with the feature disabled or the setting off,
    nothing is notified and nothing recorded. *)
Theorem commit_detection (h h' m : string) (Hh : h <> "") (Hh' : h' <> "") :
  GitIntegration.onRepositoryStateChange true (Some h) (Some m)
    (GitIntegration.mk true None)
  = (GitIntegration.mk true (Some h), None) /\
  GitIntegration.onRepositoryStateChange true (Some h') (Some m)
    (GitIntegration.mk true (Some h))
  = (GitIntegration.mk true (Some h'), if String.eqb h h' then None else Some m) /\
  GitIntegration.onRepositoryStateChange true (Some h') None
    (GitIntegration.mk true (Some h))
  = (GitIntegration.mk true (Some (if String.eqb h h' then h' else h)), None) /\
  (forall setting head commit g,
     GitIntegration.onRepositoryStateChange setting head commit (GitIntegration.disable g)
     = (GitIntegration.disable g, None) /\
     GitIntegration.onRepositoryStateChange false head commit g = (g, None)).
Proof.
  unfold GitIntegration.onRepositoryStateChange, GitIntegration.truthy.
  cbn [GitIntegration.enabled GitIntegration.lastCommitHash negb JS.is_string andb].
  apply String.eqb_neq in Hh, Hh'. rewrite Hh, Hh'. cbn [negb andb].
  split; [reflexivity|]. split; [|split].
  - destruct (String.eqb h h'); reflexivity.
  - destruct (String.eqb h h'); reflexivity.
  - intros setting head commit g. split; [reflexivity|].
    destruct (GitIntegration.enabled g); reflexivity.
Qed.

Lemma commit_detection_witness :
  GitIntegration.onRepositoryStateChange true (Some "b2") (Some "fix login bug")
    (GitIntegration.mk true (Some "a1"))
  = (GitIntegration.mk true (Some "b2"),
     if String.eqb "a1" "b2" then None else Some "fix login bug").
Proof.
  apply (proj1 (proj2 (commit_detection "a1" "b2" "fix login bug"
                         ltac:(discriminate) ltac:(discriminate)))).
Defined.

